(** * ink-text-input: the key-event handler, the reconciliation effects and
      the renderer of [source/index.tsx], embedded and verified.

    The component is a React function component.  Its pieces are embedded as
    the pure functions they are:
    - the [useInput] callback (lines 177-257) as [useInput_handler], which
      returns the trace of the calls it makes ([setState], [onChange],
      [onSubmit]) in program order;
    - the two [useEffect] callbacks (lines 116-139) as [focus_effect] and
      [clamp_effect], which return the state updater they queue, if any;
    - the render body (lines 141-174 and 271-275) as [render].

    JavaScript strings are sequences of UTF-16 code units; [length], [slice]
    and indexing count code units, while [for ... of] walks code points. *)

From Stdlib Require Import ZArith List Bool Lia Ascii String.
Import ListNotations.
Local Open Scope Z_scope.

(* ================================================================== *)
(** ** JavaScript strings                                              *)
(* ================================================================== *)

Module JS.

(** A UTF-16 code unit, 0 .. 0xFFFF. *)
Definition code_unit := Z.

Definition jsstring := list code_unit.

(** [s.length] *)
Definition len (s : jsstring) : Z := Z.of_nat (List.length s).

(** [a === b] on strings compares contents. *)
Definition str_eq_dec : forall a b : jsstring, {a = b} + {a <> b} :=
  list_eq_dec Z.eq_dec.

Definition str_eqb (a b : jsstring) : bool :=
  if str_eq_dec a b then true else false.

(** Truthiness of a string: only the empty string is falsy. *)
Definition truthy (s : jsstring) : bool :=
  match s with [] => false | _ :: _ => true end.

(** Relative index resolution of [String.prototype.slice]: a negative index
    counts from the end, and the result is clamped into [0, n]. *)
Definition rel_index (n k : Z) : Z :=
  if k <? 0 then Z.max (n + k) 0 else Z.min k n.

(** [s.slice(start, end_)] *)
Definition slice (s : jsstring) (start end_ : Z) : jsstring :=
  let n := len s in
  let from := rel_index n start in
  let to := rel_index n end_ in
  firstn (Z.to_nat (Z.max (to - from) 0)) (skipn (Z.to_nat from) s).

(** [s.slice(start)] *)
Definition slice_from (s : jsstring) (start : Z) : jsstring :=
  slice s start (len s).

(** [m.repeat(n)] for a count [n >= 0]. *)
Fixpoint repeat (m : jsstring) (n : nat) : jsstring :=
  match n with
  | O => []
  | S n' => m ++ repeat m n'
  end.

(** [s[0]] as a string; the source only indexes a non-empty string. *)
Definition char_at0 (s : jsstring) : jsstring := firstn 1 s.

Definition is_high_surrogate (c : code_unit) : bool :=
  (0xD800 <=? c) && (c <=? 0xDBFF).

Definition is_low_surrogate (c : code_unit) : bool :=
  (0xDC00 <=? c) && (c <=? 0xDFFF).

(** The string iterator used by [for (const char of s)]: a high surrogate
    followed by a low surrogate is delivered as one two-unit string, every
    other code unit on its own. *)
Fixpoint code_points (s : jsstring) : list jsstring :=
  match s with
  | [] => []
  | c :: rest =>
      match rest with
      | d :: rest' =>
          if is_high_surrogate c && is_low_surrogate d
          then [c; d] :: code_points rest'
          else [c] :: code_points rest
      | [] => [[c]]
      end
  end.

(** String literals of the examples: one code unit per ASCII character. *)
Fixpoint lit (s : string) : jsstring :=
  match s with
  | EmptyString => []
  | String a s' => Z.of_N (N_of_ascii a) :: lit s'
  end.

End JS.

Import JS.

(* ================================================================== *)
(** ** Props, state and key events                                     *)
(* ================================================================== *)

(** The props the logic reads.  [mask] is optional; [onSubmit] is optional
    and recorded by its presence, its invocations being logged in the
    handler's trace.  [onChange] is required, so it is always present.  The
    style props ([color], [bold], ...) are handed to [<Text>] untouched and
    are left out. *)
Record Props := mkProps {
  value : jsstring;               (* destructured as [originalValue] *)
  placeholder : jsstring;         (* default '' *)
  focus : bool;                   (* default true *)
  mask : option jsstring;
  highlightPastedText : bool;     (* default false *)
  showCursor : bool;              (* default true *)
  highlightOnFocus : bool;        (* default false *)
  onSubmit : bool
}.

(** The object held by [useState]. *)
Record State := mkState {
  cursorOffset : Z;
  cursorWidth : Z;
  isHighlighted : bool
}.

(** Ink's [Key]; [return] is spelled [return_]. *)
Record Key := mkKey {
  upArrow : bool;
  downArrow : bool;
  leftArrow : bool;
  rightArrow : bool;
  pageDown : bool;
  pageUp : bool;
  return_ : bool;
  escape : bool;
  ctrl : bool;
  shift : bool;
  tab : bool;
  backspace : bool;
  delete : bool;
  meta : bool
}.

(** A key event with no flag set. *)
Definition no_flags : Key :=
  mkKey false false false false false false false
        false false false false false false false.

Definition key_left : Key :=
  mkKey false false true false false false false
        false false false false false false false.

Definition key_right : Key :=
  mkKey false false false true false false false
        false false false false false false false.

Definition key_return : Key :=
  mkKey false false false false false false true
        false false false false false false false.

Definition key_backspace : Key :=
  mkKey false false false false false false false
        false false false false true false false.

Definition key_delete : Key :=
  mkKey false false false false false false false
        false false false false false true false.

Definition key_ctrl : Key :=
  mkKey false false false false false false false
        false true false false false false false.

(** [useState({cursorOffset: (originalValue || '').length, cursorWidth: 0,
    isHighlighted: false})] *)
Definition initial_state (p : Props) : State :=
  mkState (len (value p)) 0 false.

(* ================================================================== *)
(** ** The [useInput] handler                                          *)
(* ================================================================== *)

(** What the handler does to the outside, in program order. *)
Inductive Call :=
| SetState (s : State)
| OnChange (v : jsstring)
| OnSubmit (v : jsstring).

(** Lines 178-184: events left to the host application. *)
Definition ignored (input : jsstring) (key : Key) : bool :=
  upArrow key || downArrow key || (ctrl key && str_eqb input (lit "c"))
  || tab key || (shift key && tab key).

(** The four [let next...] variables of lines 196-199. *)
Record Next := mkNext {
  nextCursorOffset : Z;
  nextValue : jsstring;
  nextCursorWidth : Z;
  nextIsHighlighted : bool
}.

(** Lines 196-238: the branch on the key, before clamping. *)
Definition edit (p : Props) (st : State) (input : jsstring) (key : Key) : Next :=
  let originalValue := value p in
  let init := mkNext (cursorOffset st) originalValue 0 (isHighlighted st) in
  if leftArrow key then
    if showCursor p
    then mkNext (cursorOffset st - 1) originalValue 0 false
    else init
  else if rightArrow key then
    if showCursor p
    then mkNext (cursorOffset st + 1) originalValue 0 false
    else init
  else if backspace key || delete key then
    if cursorOffset st >? 0
    then mkNext (cursorOffset st - 1)
                (slice originalValue 0 (cursorOffset st - 1)
                 ++ slice originalValue (cursorOffset st) (len originalValue))
                0 false
    else init
  else
    let nv :=
      if isHighlighted st then input
      else slice originalValue 0 (cursorOffset st)
           ++ input
           ++ slice originalValue (cursorOffset st) (len originalValue) in
    let nco :=
      if isHighlighted st then len input
      else cursorOffset st + len input in
    mkNext nco nv (if len input >? 1 then len input else 0) false.

(** Lines 240-246: both tests read [cursorOffset], the offset of the current
    state, and overwrite [nextCursorOffset]. *)
Definition clamp (p : Props) (st : State) (n : Next) : Next :=
  let n1 :=
    if cursorOffset st <? 0
    then mkNext 0 (nextValue n) (nextCursorWidth n) (nextIsHighlighted n)
    else n in
  if cursorOffset st >? len (value p)
  then mkNext (len (value p)) (nextValue n1) (nextCursorWidth n1)
              (nextIsHighlighted n1)
  else n1.

(** Lines 177-257. *)
Definition useInput_handler (p : Props) (st : State)
    (input : jsstring) (key : Key) : list Call :=
  if ignored input key then []
  else if return_ key then
    if onSubmit p then [OnSubmit (value p)] else []
  else
    let n := clamp p st (edit p st input key) in
    SetState (mkState (nextCursorOffset n) (nextCursorWidth n)
                      (nextIsHighlighted n))
    :: (if str_eqb (nextValue n) (value p) then [] else [OnChange (nextValue n)]).

(** Observers of a trace. *)
Fixpoint state_after (st : State) (calls : list Call) : State :=
  match calls with
  | [] => st
  | SetState s :: rest => state_after s rest
  | _ :: rest => state_after st rest
  end.

Fixpoint onChange_calls (calls : list Call) : list jsstring :=
  match calls with
  | [] => []
  | OnChange v :: rest => v :: onChange_calls rest
  | _ :: rest => onChange_calls rest
  end.

Fixpoint onSubmit_calls (calls : list Call) : list jsstring :=
  match calls with
  | [] => []
  | OnSubmit v :: rest => v :: onSubmit_calls rest
  | _ :: rest => onSubmit_calls rest
  end.

Fixpoint setState_calls (calls : list Call) : list State :=
  match calls with
  | [] => []
  | SetState s :: rest => s :: setState_calls rest
  | _ :: rest => setState_calls rest
  end.

(** The value the handler computed: the argument of [onChange] when it is
    called, the unchanged [originalValue] otherwise. *)
Definition value_after (p : Props) (calls : list Call) : jsstring :=
  List.last (onChange_calls calls) (value p).

(* ================================================================== *)
(** ** The effects (reconciliation rules)                              *)
(* ================================================================== *)

(** Lines 116-129, dependencies [focus, highlightOnFocus]: the updater the
    effect passes to [setState], if it passes one.  [originalValue] is the
    value of the render the effect belongs to. *)
Definition focus_effect (p : Props) : option (State -> State) :=
  if focus p && highlightOnFocus p then
    Some (fun previousState =>
            mkState (len (value p)) (cursorWidth previousState) true)
  else if negb (focus p) then
    Some (fun previousState =>
            mkState (cursorOffset previousState) (cursorWidth previousState)
                    false)
  else None.

(** Lines 132-139, dependencies [originalValue, cursorOffset]: the test
    reads the [cursorOffset] of the render, the updater the state it is
    applied to. *)
Definition clamp_effect (p : Props) (rendered : State)
    : option (State -> State) :=
  if cursorOffset rendered >? len (value p) then
    Some (fun previousState =>
            mkState (len (value p)) (cursorWidth previousState)
                    (isHighlighted previousState))
  else None.

Definition run_effect (u : option (State -> State)) (s : State) : State :=
  match u with
  | Some f => f s
  | None => s
  end.

(** React re-runs an effect when one of its dependencies differs from the
    previous render's. *)
Definition focus_deps_changed (p p' : Props) : bool :=
  negb (Bool.eqb (focus p) (focus p')
        && Bool.eqb (highlightOnFocus p) (highlightOnFocus p')).

Definition clamp_deps_changed (p : Props) (st : State)
    (p' : Props) (st' : State) : bool :=
  negb (str_eqb (value p) (value p') && (cursorOffset st =? cursorOffset st')).

(** One commit: the render of [(p', st')] follows the render of [(p, st)];
    the effects whose dependencies changed run in source order and their
    updaters are applied in that order. *)
Definition commit (p : Props) (st : State) (p' : Props) (st' : State) : State :=
  let s1 :=
    if focus_deps_changed p p' then run_effect (focus_effect p') st' else st' in
  if clamp_deps_changed p st p' st'
  then run_effect (clamp_effect p' st') s1
  else s1.

(** A state update made by an effect causes one more render with the same
    props; [settle_stable] shows that a third commit changes nothing. *)
Definition settle (p : Props) (st : State) (p' : Props) (st' : State) : State :=
  let s1 := commit p st p' st' in
  commit p' st' p' s1.

(** First render: every effect runs. *)
Definition mount (p : Props) : State :=
  let st0 := initial_state p in
  let s1 :=
    run_effect (clamp_effect p st0) (run_effect (focus_effect p) st0) in
  commit p st0 p s1.

(** The component over time.  A key event reaches the handler only while
    [focus] holds ([useInput(..., {isActive: focus})]); Ink runs the handler
    inside [batchedUpdates], so the props the parent passes in answer to
    [onChange] or [onSubmit] arrive in the same render as the handler's
    [setState].  A parent that was not called passes the same props. *)
Inductive reachable : Props -> State -> Prop :=
| reach_mount : forall p, reachable p (mount p)
| reach_props : forall p st p',
    reachable p st ->
    reachable p' (settle p st p' st)
| reach_key : forall p st input key p',
    reachable p st ->
    focus p = true ->
    (onChange_calls (useInput_handler p st input key) = [] ->
     onSubmit_calls (useInput_handler p st input key) = [] ->
     p' = p) ->
    reachable p' (settle p st p'
                    (state_after st (useInput_handler p st input key))).

(** [UncontrolledTextInput] (lines 289-296): [onChange] is the setter of the
    local value cell, every other prop is passed through. *)
Definition with_value (p : Props) (v : jsstring) : Props :=
  mkProps v (placeholder p) (focus p) (mask p) (highlightPastedText p)
          (showCursor p) (highlightOnFocus p) (onSubmit p).

Definition uncontrolled_press (ps : Props * State)
    (ev : jsstring * Key) : Props * State :=
  let (p, st) := ps in
  let (input, key) := ev in
  if focus p then
    let calls := useInput_handler p st input key in
    let p' := with_value p (value_after p calls) in
    (p', settle p st p' (state_after st calls))
  else ps.

Definition uncontrolled_run (p : Props) (evs : list (jsstring * Key))
    : Props * State :=
  fold_left uncontrolled_press evs (p, mount p).

(* ================================================================== *)
(** ** The renderer                                                    *)
(* ================================================================== *)

(** Modelled from the spec: the styling helper [chalk] is an external
    package, treated as an injected capability from (string, style) to
    styled string.  A styled string is kept as its code units, each tagged
    with the style it is shown in; [+] on styled strings is [++]. *)
Inductive Style := Plain | Inverse | Grey.

Definition styled := list (Style * code_unit).

Definition plain (s : jsstring) : styled := map (pair Plain) s.

Definition chalk_inverse (s : jsstring) : styled := map (pair Inverse) s.

Definition chalk_grey (s : jsstring) : styled := map (pair Grey) s.

(** Removing the styling leaves the text. *)
Definition strip_styles (t : styled) : jsstring := map snd t.

(** Line 141. *)
Definition cursorActualWidth (p : Props) (st : State) : Z :=
  if highlightPastedText p then cursorWidth st else 0.

(** Line 143: [mask ? mask.repeat(originalValue.length) : originalValue]. *)
Definition masked_value (p : Props) : jsstring :=
  match mask p with
  | Some m =>
      if truthy m then JS.repeat m (List.length (value p)) else value p
  | None => value p
  end.

(** Lines 156-165: the [for ... of] loop, [i] counting iterations. *)
Fixpoint cursor_loop (chars : list jsstring) (i lo hi : Z)
    (renderedValue : styled) : styled :=
  match chars with
  | [] => renderedValue
  | char :: rest =>
      cursor_loop rest (i + 1) lo hi
        (renderedValue ++
         (if (i >=? lo) && (i <=? hi) then chalk_inverse char else plain char))
  end.

Definition cursor_mode (p : Props) (st : State) : bool :=
  showCursor p && focus p && negb (isHighlighted st).

(** Lines 145-174, the placeholder; [None] is [undefined]. *)
Definition renderedPlaceholder (p : Props) (st : State) : option styled :=
  if cursor_mode p st then
    Some (if len (placeholder p) >? 0
          then chalk_inverse (char_at0 (placeholder p))
               ++ chalk_grey (slice_from (placeholder p) 1)
          else chalk_inverse (lit " "))
  else if isHighlighted st then
    if truthy (placeholder p) then Some (chalk_inverse (placeholder p))
    else None
  else
    if truthy (placeholder p) then Some (chalk_grey (placeholder p))
    else None.

(** Lines 144-174, the value. *)
Definition renderedValue (p : Props) (st : State) : styled :=
  let value := masked_value p in
  if cursor_mode p st then
    let start := if len value >? 0 then [] else chalk_inverse (lit " ") in
    let body :=
      cursor_loop (code_points value) 0
        (cursorOffset st - cursorActualWidth p st) (cursorOffset st) start in
    if (len value >? 0) && (cursorOffset st =? len value)
    then body ++ chalk_inverse (lit " ")
    else body
  else if isHighlighted st then chalk_inverse value
  else plain value.

(** Lines 271-275: the child of [<Text>]. *)
Definition render (p : Props) (st : State) : option styled :=
  if truthy (placeholder p) then
    if len (masked_value p) >? 0
    then Some (renderedValue p st)
    else renderedPlaceholder p st
  else Some (renderedValue p st).

(** Whether the placeholder is what is shown. *)
Definition shows_placeholder (p : Props) : bool :=
  truthy (placeholder p) && negb (len (masked_value p) >? 0).

(** Whether the fake cursor is an extra inverse space. *)
Definition cursor_space (p : Props) (st : State) : bool :=
  cursor_mode p st
  && (negb (len (masked_value p) >? 0)
      || (cursorOffset st =? len (masked_value p))).

(** Letters, for the events delivered with [ctrl]. *)
Definition is_letter (c : code_unit) : bool :=
  ((65 <=? c) && (c <=? 90)) || ((97 <=? c) && (c <=? 122)).

(** Default props around a value. *)
Definition default_props (v : jsstring) : Props :=
  mkProps v [] true None false true false true.

Definition with_focus (p : Props) (f : bool) : Props :=
  mkProps (value p) (placeholder p) f (mask p) (highlightPastedText p)
          (showCursor p) (highlightOnFocus p) (onSubmit p).

Definition with_highlightOnFocus (p : Props) (h : bool) : Props :=
  mkProps (value p) (placeholder p) (focus p) (mask p) (highlightPastedText p)
          (showCursor p) h (onSubmit p).

Definition with_mask (p : Props) (m : jsstring) : Props :=
  mkProps (value p) (placeholder p) (focus p) (Some m) (highlightPastedText p)
          (showCursor p) (highlightOnFocus p) (onSubmit p).

Definition with_placeholder (p : Props) (ph : jsstring) : Props :=
  mkProps (value p) ph (focus p) (mask p) (highlightPastedText p)
          (showCursor p) (highlightOnFocus p) (onSubmit p).

(** Events that reach the last branch of the handler (line 220). *)
Definition printable (input : jsstring) (key : Key) : bool :=
  negb (ignored input key) && negb (return_ key) && negb (leftArrow key)
  && negb (rightArrow key) && negb (backspace key || delete key).

(** Events that reach the backspace/delete branch (line 211). *)
Definition erasing (input : jsstring) (key : Key) : bool :=
  negb (ignored input key) && negb (return_ key) && negb (leftArrow key)
  && negb (rightArrow key) && (backspace key || delete key).

(** None of the flags the handler reads is set ([shift] is read only
    together with [tab]). *)
Definition no_special_flag (key : Key) : bool :=
  negb (upArrow key || downArrow key || leftArrow key || rightArrow key
        || return_ key || ctrl key || tab key || backspace key || delete key).

(** [ctrl] held, and no flag of a named key. *)
Definition ctrl_only (key : Key) : bool :=
  ctrl key
  && negb (upArrow key || downArrow key || leftArrow key || rightArrow key
           || return_ key || tab key || backspace key || delete key).

(** The value an event leaves: [nextValue] when the handler gets to compute
    it, the unchanged [originalValue] when it returns early. *)
Definition resulting_value (p : Props) (st : State) (input : jsstring)
    (key : Key) : jsstring :=
  if ignored input key || return_ key then value p
  else nextValue (clamp p st (edit p st input key)).

(** What the handler does when a highlighted value is typed over. *)
Definition typed_over (p : Props) (s : jsstring) : list Call :=
  SetState (mkState (len s) (if len s >? 1 then len s else 0) false)
  :: (if str_eqb s (value p) then [] else [OnChange s]).

(** What holds of the state between events: the offset does not exceed the
    value, a highlighted value has its offset at or after 0, and nothing is
    highlighted while the component has no focus. *)
Definition settled (p : Props) (st : State) : Prop :=
  cursorOffset st <= len (value p)
  /\ (isHighlighted st = true -> 0 <= cursorOffset st)
  /\ (focus p = false -> isHighlighted st = false).

(** One key event per code unit, none with a flag: typing [cs]. *)
Definition keystrokes (cs : jsstring) : list (jsstring * Key) :=
  map (fun c => ([c], no_flags)) cs.

(** [n] further renders with the same props, each followed by its commit;
    [prev] is the state of the render before [cur]. *)
Fixpoint rerender (n : nat) (p : Props) (prev cur : State) : State :=
  match n with
  | O => cur
  | S n' => rerender n' p cur (commit p prev p cur)
  end.

(** The bounds the offset and the cursor width keep between events. *)
Definition offset_bounded (p : Props) (st : State) : Prop :=
  -1 <= cursorOffset st <= len (value p) /\ 0 <= cursorWidth st.

(** Whether some code unit of a styled string is shown in inverse. *)
Definition shows_inverse (t : styled) : bool :=
  existsb (fun x => match fst x with Inverse => true | _ => false end) t.

(** A string in which [for ... of] cannot pair two code units. *)
Definition no_high_surrogate (s : jsstring) : bool :=
  forallb (fun c => negb (is_high_surrogate c)) s.

(** The style the loop of lines 158-165 gives the character it meets at
    iteration [i]. *)
Definition loop_style (p : Props) (st : State) (i : Z) : Style :=
  if (i >=? cursorOffset st - cursorActualWidth p st) && (i <=? cursorOffset st)
  then Inverse else Plain.

(** Boolean tests on offsets, as propositions for [lia]. *)
Ltac zify_tests :=
  repeat match goal with
  | H : (_ >? _) = true |- _ => apply Z.gtb_lt in H
  | H : (_ >? _) = false |- _ => rewrite Z.gtb_ltb in H; apply Z.ltb_ge in H
  | H : (_ <? _) = true |- _ => apply Z.ltb_lt in H
  | H : (_ <? _) = false |- _ => apply Z.ltb_ge in H
  | H : (_ =? _) = true |- _ => apply Z.eqb_eq in H
  | H : (_ =? _) = false |- _ => apply Z.eqb_neq in H
  end.

(* ================================================================== *)
(** ** Strings: lengths, slices, iteration                             *)
(* ================================================================== *)

Lemma len_nonneg (s : jsstring) : 0 <= len s.
Proof. unfold len. lia. Qed.

Lemma len_app (a b : jsstring) : len (a ++ b) = len a + len b.
Proof. unfold len. rewrite length_app. lia. Qed.

Lemma len_nil_iff (s : jsstring) : len s = 0 <-> s = [].
Proof.
  unfold len. destruct s as [|c s]; simpl; split; intro H;
    try reflexivity; try discriminate; lia.
Qed.

Lemma truthy_len (s : jsstring) : truthy s = (len s >? 0).
Proof.
  unfold len. destruct s as [|c s]; simpl; [reflexivity|].
  symmetry. apply Z.gtb_lt. lia.
Qed.

Lemma str_eqb_eq (a b : jsstring) : str_eqb a b = true <-> a = b.
Proof.
  unfold str_eqb. destruct (str_eq_dec a b); split; intro;
    try reflexivity; try assumption; try discriminate; contradiction.
Qed.

Lemma str_eqb_neq (a b : jsstring) : str_eqb a b = false <-> a <> b.
Proof.
  unfold str_eqb. destruct (str_eq_dec a b); split; intro;
    try reflexivity; try assumption; try discriminate; contradiction.
Qed.

Lemma str_eqb_refl (a : jsstring) : str_eqb a a = true.
Proof. apply str_eqb_eq. reflexivity. Qed.

(** Inside the string, [slice(0, k)] is the prefix of length [k]. *)
Lemma slice_prefix (s : jsstring) (k : Z) :
  0 <= k <= len s -> slice s 0 k = firstn (Z.to_nat k) s.
Proof.
  intros Hk. unfold slice, rel_index.
  assert (H0 : (0 <? 0) = false) by reflexivity. rewrite H0.
  assert (Hk0 : (k <? 0) = false) by (apply Z.ltb_ge; lia). rewrite Hk0.
  rewrite (Z.min_l 0 (len s)) by apply len_nonneg.
  rewrite (Z.min_l k (len s)) by lia.
  simpl skipn. f_equal. lia.
Qed.

(** Inside the string, [slice(k, length)] is the suffix from [k]. *)
Lemma slice_suffix (s : jsstring) (k : Z) :
  0 <= k <= len s -> slice s k (len s) = skipn (Z.to_nat k) s.
Proof.
  intros Hk. unfold slice, rel_index.
  assert (Hk0 : (k <? 0) = false) by (apply Z.ltb_ge; lia). rewrite Hk0.
  assert (Hl0 : (len s <? 0) = false)
    by (apply Z.ltb_ge; apply len_nonneg). rewrite Hl0.
  rewrite (Z.min_l k (len s)) by lia.
  rewrite (Z.min_l (len s) (len s)) by lia.
  apply firstn_all2. rewrite length_skipn. unfold len in *. lia.
Qed.

(** For every offset, also outside the string, the two slices the handler
    takes around the cursor make up the string. *)
Lemma slice_split (s : jsstring) (k : Z) :
  slice s 0 k ++ slice s k (len s) = s.
Proof.
  unfold slice, rel_index.
  assert (H0 : (0 <? 0) = false) by reflexivity. rewrite H0.
  assert (Hl0 : (len s <? 0) = false)
    by (apply Z.ltb_ge; apply len_nonneg). rewrite Hl0.
  rewrite (Z.min_l 0) by apply len_nonneg.
  rewrite (Z.min_l (len s) (len s)) by lia.
  simpl skipn at 1.
  set (j := if k <? 0 then Z.max (len s + k) 0 else Z.min k (len s)).
  assert (Hj : 0 <= j <= len s).
  { subst j. pose proof (len_nonneg s). destruct (k <? 0) eqn:E.
    - apply Z.ltb_lt in E. lia.
    - apply Z.ltb_ge in E. lia. }
  replace (Z.max (j - 0) 0) with j by lia.
  rewrite (firstn_all2 (n := Z.to_nat (Z.max (len s - j) 0))).
  - apply firstn_skipn.
  - rewrite length_skipn. unfold len in *. lia.
Qed.

Lemma len_slice_split (s : jsstring) (k : Z) :
  len (slice s 0 k) + len (slice s k (len s)) = len s.
Proof. rewrite <- len_app. rewrite slice_split. reflexivity. Qed.

(** [s[0] + s.slice(1)] is [s]. *)
Lemma char_at0_slice_from (s : jsstring) :
  char_at0 s ++ slice_from s 1 = s.
Proof.
  unfold char_at0, slice_from.
  destruct s as [|c s]; [reflexivity|].
  rewrite slice_suffix.
  - reflexivity.
  - unfold len. simpl List.length. lia.
Qed.

Lemma length_repeat (m : jsstring) (n : nat) :
  List.length (JS.repeat m n) = (n * List.length m)%nat.
Proof.
  induction n as [|n IH]; simpl; [reflexivity|].
  rewrite length_app, IH. lia.
Qed.

Lemma len_repeat (m : jsstring) (n : nat) :
  len (JS.repeat m n) = Z.of_nat n * len m.
Proof. unfold len. rewrite length_repeat. lia. Qed.

Lemma code_points_cons2 (c d : code_unit) (r : jsstring) :
  code_points (c :: d :: r) =
  if is_high_surrogate c && is_low_surrogate d
  then [c; d] :: code_points r
  else [c] :: code_points (d :: r).
Proof. reflexivity. Qed.

(** The iterator delivers the whole string, in order. *)
Lemma concat_code_points (s : jsstring) : List.concat (code_points s) = s.
Proof.
  assert (H : forall n (t : jsstring),
             (List.length t <= n)%nat -> List.concat (code_points t) = t).
  { induction n as [|n IH]; intros t Ht.
    - destruct t; [reflexivity | simpl in Ht; lia].
    - destruct t as [|c [|d r]]; try reflexivity.
      rewrite code_points_cons2.
      destruct (is_high_surrogate c && is_low_surrogate d).
      + change (List.concat ([c; d] :: code_points r))
          with (c :: d :: List.concat (code_points r)).
        rewrite IH; [reflexivity | simpl in *; lia].
      + change (List.concat ([c] :: code_points (d :: r)))
          with (c :: List.concat (code_points (d :: r))).
        rewrite IH; [reflexivity | simpl in *; lia]. }
  apply (H (List.length s)). lia.
Qed.

(* ================================================================== *)
(** ** The handler, branch by branch                                   *)
(* ================================================================== *)

Lemma printable_spec (input : jsstring) (key : Key) :
  printable input key = true <->
  ignored input key = false /\ return_ key = false /\ leftArrow key = false
  /\ rightArrow key = false /\ backspace key = false /\ delete key = false.
Proof.
  unfold printable.
  rewrite !andb_true_iff, !negb_true_iff, orb_false_iff. tauto.
Qed.

Lemma erasing_spec (input : jsstring) (key : Key) :
  erasing input key = true <->
  ignored input key = false /\ return_ key = false /\ leftArrow key = false
  /\ rightArrow key = false /\ (backspace key || delete key) = true.
Proof.
  unfold erasing. rewrite !andb_true_iff, !negb_true_iff. tauto.
Qed.

Lemma no_special_flag_printable (input : jsstring) (key : Key) :
  no_special_flag key = true -> printable input key = true.
Proof.
  unfold no_special_flag. rewrite negb_true_iff, !orb_false_iff.
  intros [[[[[[[[Hu Hd] Hl] Hr] Hret] Hc] Ht] Hb] Hdel].
  apply printable_spec. unfold ignored.
  rewrite Hu, Hd, Hc, Ht, Hl, Hr, Hret, Hb, Hdel. simpl.
  rewrite andb_false_r. repeat split; reflexivity.
Qed.

Lemma ctrl_only_printable (input : jsstring) (key : Key) :
  ctrl_only key = true -> input <> lit "c" -> printable input key = true.
Proof.
  unfold ctrl_only. rewrite andb_true_iff, negb_true_iff, !orb_false_iff.
  intros [Hc [[[[[[[Hu Hd] Hl] Hr] Hret] Ht] Hb] Hdel]] Hne.
  apply printable_spec. unfold ignored.
  apply str_eqb_neq in Hne.
  rewrite Hu, Hd, Hc, Ht, Hl, Hr, Hret, Hb, Hdel, Hne. simpl.
  rewrite andb_false_r. repeat split; reflexivity.
Qed.

(** The text the last branch computes. *)
Lemma edit_printable (p : Props) (st : State) (input : jsstring) (key : Key) :
  printable input key = true ->
  edit p st input key =
  mkNext (if isHighlighted st then len input else cursorOffset st + len input)
         (if isHighlighted st then input
          else slice (value p) 0 (cursorOffset st) ++ input
               ++ slice (value p) (cursorOffset st) (len (value p)))
         (if len input >? 1 then len input else 0)
         false.
Proof.
  intros H. apply printable_spec in H.
  destruct H as (_ & _ & Hl & Hr & Hb & Hd).
  unfold edit. rewrite Hl, Hr, Hb, Hd. reflexivity.
Qed.

Lemma nextValue_clamp (p : Props) (st : State) (n : Next) :
  nextValue (clamp p st n) = nextValue n.
Proof.
  unfold clamp.
  destruct (cursorOffset st <? 0), (cursorOffset st >? len (value p));
    reflexivity.
Qed.

Lemma nextCursorWidth_clamp (p : Props) (st : State) (n : Next) :
  nextCursorWidth (clamp p st n) = nextCursorWidth n.
Proof.
  unfold clamp.
  destruct (cursorOffset st <? 0), (cursorOffset st >? len (value p));
    reflexivity.
Qed.

Lemma nextIsHighlighted_clamp (p : Props) (st : State) (n : Next) :
  nextIsHighlighted (clamp p st n) = nextIsHighlighted n.
Proof.
  unfold clamp.
  destruct (cursorOffset st <? 0), (cursorOffset st >? len (value p));
    reflexivity.
Qed.

(** With the current offset inside the value, neither test of lines 240-246
    fires. *)
Lemma clamp_in_range (p : Props) (st : State) (n : Next) :
  0 <= cursorOffset st <= len (value p) -> clamp p st n = n.
Proof.
  intros H. unfold clamp.
  assert (H1 : (cursorOffset st <? 0) = false) by (apply Z.ltb_ge; lia).
  assert (H2 : (cursorOffset st >? len (value p)) = false).
  { rewrite Z.gtb_ltb. apply Z.ltb_ge. lia. }
  rewrite H1, H2. reflexivity.
Qed.

(** An event that is neither ignored nor a return sets the state once and
    reports the value when it changed. *)
Lemma handler_editing (p : Props) (st : State) (input : jsstring) (key : Key) :
  ignored input key = false -> return_ key = false ->
  useInput_handler p st input key =
  SetState (mkState (nextCursorOffset (clamp p st (edit p st input key)))
                    (nextCursorWidth (edit p st input key))
                    (nextIsHighlighted (edit p st input key)))
  :: (if str_eqb (nextValue (edit p st input key)) (value p) then []
      else [OnChange (nextValue (edit p st input key))]).
Proof.
  intros Hi Hr. unfold useInput_handler. rewrite Hi, Hr.
  rewrite nextValue_clamp, nextCursorWidth_clamp, nextIsHighlighted_clamp.
  reflexivity.
Qed.

(** Splicing a non-empty input changes the value. *)
Lemma splice_differs (v input : jsstring) (k : Z) :
  input <> [] ->
  slice v 0 k ++ input ++ slice v k (len v) <> v.
Proof.
  intros Hne Heq.
  assert (Hlen : len (slice v 0 k ++ input ++ slice v k (len v)) = len v)
    by (rewrite Heq; reflexivity).
  rewrite !len_app in Hlen.
  pose proof (len_slice_split v k) as Hs.
  assert (H0 : len input = 0) by lia.
  apply len_nil_iff in H0. contradiction.
Qed.

(** Splicing the empty input leaves the value as it is. *)
Lemma splice_empty (v : jsstring) (k : Z) :
  slice v 0 k ++ [] ++ slice v k (len v) = v.
Proof. simpl. apply slice_split. Qed.

(* ================================================================== *)
(** ** Typing, submitting, erasing                                     *)
(* ================================================================== *)

(** C2.  Typing one character [c] (a key event with none of the special
    flags, input of one code unit) while nothing is highlighted and the
    cursor is at [k], [0 <= k <= length v]: the handler sets the state to
    cursor [k + 1], cursor width [0], not highlighted, and reports the value
    [v[0:k] + c + v[k:]] to [onChange]. *)
Theorem type_single_char_at_cursor :
  forall (p : Props) (st : State) (c : code_unit) (key : Key),
    no_special_flag key = true ->
    isHighlighted st = false ->
    0 <= cursorOffset st <= len (value p) ->
    useInput_handler p st [c] key =
    [SetState (mkState (cursorOffset st + 1) 0 false);
     OnChange (firstn (Z.to_nat (cursorOffset st)) (value p)
               ++ [c]
               ++ skipn (Z.to_nat (cursorOffset st)) (value p))].
Proof.
  intros p st c key Hkey Hh Hk.
  pose proof (no_special_flag_printable [c] key Hkey) as Hp.
  pose proof Hp as Hp'. apply printable_spec in Hp'.
  destruct Hp' as (Hi & Hr & _).
  rewrite (handler_editing p st [c] key Hi Hr).
  rewrite (clamp_in_range p st _ Hk).
  rewrite (edit_printable p st [c] key Hp). rewrite Hh.
  cbn [nextCursorOffset nextValue nextCursorWidth nextIsHighlighted].
  rewrite (slice_prefix (value p) (cursorOffset st) Hk).
  rewrite (slice_suffix (value p) (cursorOffset st) Hk).
  change (len [c]) with 1. change (1 >? 1) with false. cbv iota.
  assert (Hd : str_eqb (firstn (Z.to_nat (cursorOffset st)) (value p)
                         ++ [c]
                         ++ skipn (Z.to_nat (cursorOffset st)) (value p))
                       (value p) = false).
  { apply str_eqb_neq.
    rewrite <- (slice_prefix (value p) (cursorOffset st) Hk).
    rewrite <- (slice_suffix (value p) (cursorOffset st) Hk).
    apply splice_differs. discriminate. }
  rewrite Hd. reflexivity.
Qed.

Lemma type_single_char_at_cursor_witness :
  useInput_handler (default_props (lit "ac")) (mkState 1 0 false)
                   (lit "b") no_flags =
  [SetState (mkState 2 0 false); OnChange (lit "abc")].
Proof.
  apply (type_single_char_at_cursor
           (default_props (lit "ac")) (mkState 1 0 false) 98 no_flags).
  - reflexivity.
  - reflexivity.
  - simpl. unfold len. simpl. lia.
Defined.

(** C4.  A return key event calls [onSubmit] once with the current value
    (when the prop is given; nothing is called otherwise), calls neither
    [setState] nor [onChange], and so leaves the state as it was. *)
Theorem return_submits_current_value :
  forall (p : Props) (st : State) (input : jsstring) (key : Key),
    ignored input key = false ->
    return_ key = true ->
    useInput_handler p st input key =
      (if onSubmit p then [OnSubmit (value p)] else [])
    /\ (onSubmit p = true ->
        onSubmit_calls (useInput_handler p st input key) = [value p])
    /\ setState_calls (useInput_handler p st input key) = []
    /\ state_after st (useInput_handler p st input key) = st
    /\ onChange_calls (useInput_handler p st input key) = [].
Proof.
  intros p st input key Hi Hr.
  unfold useInput_handler. rewrite Hi, Hr.
  destruct (onSubmit p); repeat split; try reflexivity; discriminate.
Qed.

Lemma return_submits_current_value_witness :
  useInput_handler (default_props (lit "query")) (mkState 5 0 false)
                   [] key_return = [OnSubmit (lit "query")]
  /\ state_after (mkState 5 0 false)
       (useInput_handler (default_props (lit "query")) (mkState 5 0 false)
                         [] key_return) = mkState 5 0 false.
Proof.
  destruct (return_submits_current_value
              (default_props (lit "query")) (mkState 5 0 false) [] key_return
              eq_refl eq_refl) as (H1 & _ & _ & H4 & _).
  split; [exact H1 | exact H4].
Defined.

(** The offset, the value and the highlight an erasing event leaves when the
    cursor is at 0. *)
Lemma edit_erasing_at_zero (p : Props) (st : State) (input : jsstring)
    (key : Key) :
  erasing input key = true -> cursorOffset st = 0 ->
  edit p st input key = mkNext 0 (value p) 0 (isHighlighted st).
Proof.
  intros H H0. apply erasing_spec in H.
  destruct H as (_ & _ & Hl & Hr & Hb).
  unfold edit. rewrite Hl, Hr, Hb, H0. reflexivity.
Qed.

(** C6, as the code has it.  A backspace or delete event with the cursor at
    0 leaves the value, the cursor offset and the highlight as they were and
    calls no [onChange]; it calls [setState] with cursor width 0, so the
    whole state is unchanged when the cursor width was 0 already. *)
Theorem erase_at_zero_resets_only_width :
  forall (p : Props) (st : State) (input : jsstring) (key : Key),
    erasing input key = true ->
    cursorOffset st = 0 ->
    useInput_handler p st input key =
      [SetState (mkState 0 0 (isHighlighted st))]
    /\ onChange_calls (useInput_handler p st input key) = []
    /\ value_after p (useInput_handler p st input key) = value p
    /\ (cursorWidth st = 0 ->
        state_after st (useInput_handler p st input key) = st).
Proof.
  intros p st input key He H0.
  pose proof He as He'. apply erasing_spec in He'.
  destruct He' as (Hi & Hr & _).
  assert (Hrange : 0 <= cursorOffset st <= len (value p)).
  { pose proof (len_nonneg (value p)). lia. }
  assert (Htrace : useInput_handler p st input key =
                   [SetState (mkState 0 0 (isHighlighted st))]).
  { rewrite (handler_editing p st input key Hi Hr).
    rewrite (clamp_in_range p st _ Hrange).
    rewrite (edit_erasing_at_zero p st input key He H0).
    cbn [nextCursorOffset nextValue nextCursorWidth nextIsHighlighted].
    rewrite str_eqb_refl. reflexivity. }
  rewrite Htrace. repeat split.
  intros Hw. destruct st as [co cw ih]. simpl in *. subst. reflexivity.
Qed.

Lemma erase_at_zero_resets_only_width_witness :
  useInput_handler (default_props (lit "abc")) (mkState 0 0 false)
                   [] key_backspace = [SetState (mkState 0 0 false)]
  /\ state_after (mkState 0 0 false)
       (useInput_handler (default_props (lit "abc")) (mkState 0 0 false)
                         [] key_backspace) = mkState 0 0 false.
Proof.
  destruct (erase_at_zero_resets_only_width
              (default_props (lit "abc")) (mkState 0 0 false) [] key_backspace
              eq_refl eq_refl) as (H1 & _ & _ & H4).
  split; [exact H1 | exact (H4 eq_refl)].
Defined.

(* ================================================================== *)
(** ** Reconciliation                                                  *)
(* ================================================================== *)

Lemma focus_deps_same (p : Props) : focus_deps_changed p p = false.
Proof.
  unfold focus_deps_changed. rewrite !Bool.eqb_reflx. reflexivity.
Qed.

Lemma focus_deps_unchanged (p p' : Props) :
  focus_deps_changed p p' = false ->
  focus p = focus p' /\ highlightOnFocus p = highlightOnFocus p'.
Proof.
  unfold focus_deps_changed. rewrite negb_false_iff, andb_true_iff.
  intros [H1 H2]. split; apply Bool.eqb_prop; assumption.
Qed.

Lemma focus_changed_deps (p p' : Props) :
  focus p <> focus p' -> focus_deps_changed p p' = true.
Proof.
  intros H. unfold focus_deps_changed.
  destruct (focus p), (focus p'); try reflexivity; contradiction H; reflexivity.
Qed.

Lemma clamp_deps_unchanged (p : Props) (st : State) (p' : Props) (st' : State) :
  clamp_deps_changed p st p' st' = false ->
  value p = value p' /\ cursorOffset st = cursorOffset st'.
Proof.
  unfold clamp_deps_changed. rewrite negb_false_iff, andb_true_iff.
  intros [H1 H2]. split; [apply str_eqb_eq | apply Z.eqb_eq]; assumption.
Qed.

Lemma clamp_deps_same_props (p : Props) (st st' : State) :
  clamp_deps_changed p st p st' = negb (cursorOffset st =? cursorOffset st').
Proof. unfold clamp_deps_changed. rewrite str_eqb_refl. reflexivity. Qed.

(** The focus effect run with [focus] false clears the highlight, whatever
    [highlightOnFocus] and the state are. *)
Lemma focus_effect_blur (p : Props) (st : State) :
  focus p = false -> isHighlighted (run_effect (focus_effect p) st) = false.
Proof.
  intros H. unfold focus_effect. rewrite H. reflexivity.
Qed.

(** The focus effect run with [focus] and [highlightOnFocus] highlights the
    value and puts the cursor at its end. *)
Lemma focus_effect_highlight (p : Props) (st : State) :
  focus p = true -> highlightOnFocus p = true ->
  run_effect (focus_effect p) st = mkState (len (value p)) (cursorWidth st) true.
Proof.
  intros Hf Hh. unfold focus_effect. rewrite Hf, Hh. reflexivity.
Qed.

(** The clamp effect never touches the highlight or the cursor width. *)
Lemma clamp_effect_frame (p : Props) (rendered st : State) :
  isHighlighted (run_effect (clamp_effect p rendered) st) = isHighlighted st
  /\ cursorWidth (run_effect (clamp_effect p rendered) st) = cursorWidth st.
Proof.
  unfold clamp_effect.
  destruct (cursorOffset rendered >? len (value p)); split; reflexivity.
Qed.

(** One commit, from what it is given to what it leaves. *)
Lemma commit_settled (p : Props) (st : State) (p' : Props) (st' : State) :
  (clamp_deps_changed p st p' st' = false ->
   cursorOffset st' <= len (value p')) ->
  (isHighlighted st' = true -> 0 <= cursorOffset st') ->
  (focus p' = false -> focus_deps_changed p p' = false ->
   isHighlighted st' = false) ->
  settled p' (commit p st p' st').
Proof.
  intros Hup Hlo Hfo.
  pose proof (len_nonneg (value p')) as Hlen.
  unfold settled, commit, focus_effect, clamp_effect, run_effect.
  destruct st' as [co cw ih]. cbn [cursorOffset cursorWidth isHighlighted] in *.
  destruct (focus_deps_changed p p') eqn:Efd;
    destruct (clamp_deps_changed p st p' (mkState co cw ih)) eqn:Ecd;
    destruct (focus p') eqn:Ef; destruct (highlightOnFocus p') eqn:Eh;
    cbn [andb negb];
    destruct (co >? len (value p')) eqn:Egt;
    cbn [cursorOffset cursorWidth isHighlighted];
    zify_tests;
    repeat split; intros;
    try discriminate; try lia;
    try (specialize (Hup eq_refl); lia);
    try (apply Hlo; assumption);
    try (apply Hfo; reflexivity);
    try reflexivity.
Qed.

(** A commit caused by a state update alone keeps a settled state. *)
Lemma recommit_settled (p : Props) (st s1 : State) :
  settled p s1 -> commit p st p s1 = s1 /\ settled p s1.
Proof.
  intros Hs. split; [|exact Hs].
  destruct Hs as (Hup & _ & _).
  unfold commit. rewrite focus_deps_same.
  unfold clamp_effect.
  assert (E : (cursorOffset s1 >? len (value p)) = false).
  { rewrite Z.gtb_ltb. apply Z.ltb_ge. exact Hup. }
  rewrite E. destruct (clamp_deps_changed p st p s1); reflexivity.
Qed.

Lemma settle_settled (p : Props) (st : State) (p' : Props) (st' : State) :
  (clamp_deps_changed p st p' st' = false ->
   cursorOffset st' <= len (value p')) ->
  (isHighlighted st' = true -> 0 <= cursorOffset st') ->
  (focus p' = false -> focus_deps_changed p p' = false ->
   isHighlighted st' = false) ->
  settle p st p' st' = commit p st p' st'
  /\ settled p' (settle p st p' st').
Proof.
  intros Hup Hlo Hfo.
  pose proof (commit_settled p st p' st' Hup Hlo Hfo) as Hs.
  unfold settle.
  destruct (recommit_settled p' st' (commit p st p' st') Hs) as [E _].
  rewrite E. split; [reflexivity | exact Hs].
Qed.

Lemma mount_settled (p : Props) : settled p (mount p).
Proof.
  pose proof (len_nonneg (value p)) as Hlen.
  unfold mount.
  set (s1 := run_effect (clamp_effect p (initial_state p))
               (run_effect (focus_effect p) (initial_state p))).
  assert (Hs1 : settled p s1).
  { subst s1. unfold settled, initial_state, clamp_effect, focus_effect,
      run_effect.
    cbn [cursorOffset].
    assert (E : (len (value p) >? len (value p)) = false).
    { rewrite Z.gtb_ltb. apply Z.ltb_ge. lia. }
    rewrite E.
    destruct (focus p), (highlightOnFocus p);
      cbn [andb negb cursorOffset cursorWidth isHighlighted];
      repeat split; intros; try discriminate; try lia; reflexivity. }
  destruct (recommit_settled p (initial_state p) s1 Hs1) as [E _].
  rewrite E. exact Hs1.
Qed.

(** A commit caused by a state update alone runs the clamp effect at most. *)
Lemma recommit_unfold (p : Props) (st s1 : State) :
  commit p st p s1 =
  if negb (cursorOffset st =? cursorOffset s1)
  then run_effect (clamp_effect p s1) s1
  else s1.
Proof.
  unfold commit. rewrite focus_deps_same, clamp_deps_same_props. reflexivity.
Qed.

(** A third commit finds nothing to do: two commits settle the state. *)
Lemma settle_stable (p : Props) (st : State) (p' : Props) (st' : State) :
  commit p' (commit p st p' st') p' (settle p st p' st') = settle p st p' st'.
Proof.
  unfold settle.
  set (s1 := commit p st p' st').
  rewrite (recommit_unfold p' st' s1).
  destruct (cursorOffset st' =? cursorOffset s1) eqn:E1; cbn [negb].
  - rewrite recommit_unfold. rewrite Z.eqb_refl. reflexivity.
  - unfold clamp_effect.
    destruct (cursorOffset s1 >? len (value p')) eqn:E2;
      cbn [run_effect]; rewrite recommit_unfold.
    + unfold clamp_effect. cbn [cursorOffset].
      assert (E3 : (len (value p') >? len (value p')) = false).
      { rewrite Z.gtb_ltb. apply Z.ltb_ge. lia. }
      rewrite E3.
      destruct (negb (cursorOffset s1 =? len (value p'))); reflexivity.
    + rewrite Z.eqb_refl. reflexivity.
Qed.

(* ================================================================== *)
(** ** The component over time                                         *)
(* ================================================================== *)

(** The state the handler leaves. *)
Lemma state_after_handler (p : Props) (st : State) (input : jsstring)
    (key : Key) :
  state_after st (useInput_handler p st input key) =
  if ignored input key || return_ key then st
  else mkState (nextCursorOffset (clamp p st (edit p st input key)))
               (nextCursorWidth (edit p st input key))
               (nextIsHighlighted (edit p st input key)).
Proof.
  destruct (ignored input key) eqn:Hi.
  - unfold useInput_handler. rewrite Hi. reflexivity.
  - destruct (return_ key) eqn:Hr.
    + unfold useInput_handler. rewrite Hi, Hr.
      destruct (onSubmit p); reflexivity.
    + rewrite (handler_editing p st input key Hi Hr). cbn [orb].
      destruct (str_eqb (nextValue (edit p st input key)) (value p));
        reflexivity.
Qed.

(** Only a branch that leaves the offset alone leaves a highlight. *)
Lemma edit_keeps_highlight (p : Props) (st : State) (input : jsstring)
    (key : Key) :
  nextIsHighlighted (edit p st input key) = true ->
  isHighlighted st = true
  /\ nextCursorOffset (edit p st input key) = cursorOffset st.
Proof.
  unfold edit.
  destruct (leftArrow key), (rightArrow key), (backspace key || delete key),
    (showCursor p), (cursorOffset st >? 0);
    cbn [nextIsHighlighted nextCursorOffset]; intros H;
    try discriminate; split; try assumption; reflexivity.
Qed.

Lemma key_highlight_lower (p : Props) (st : State) (input : jsstring)
    (key : Key) :
  settled p st ->
  isHighlighted (state_after st (useInput_handler p st input key)) = true ->
  0 <= cursorOffset (state_after st (useInput_handler p st input key)).
Proof.
  intros (Hup & Hlo & _). rewrite state_after_handler.
  destruct (ignored input key || return_ key); [exact Hlo|].
  cbn [isHighlighted cursorOffset]. intros Hn.
  destruct (edit_keeps_highlight p st input key Hn) as [Hh Hc].
  specialize (Hlo Hh).
  rewrite clamp_in_range by lia. lia.
Qed.

(** Every state the component can be in between events is settled. *)
Lemma reachable_settled (p : Props) (st : State) :
  reachable p st -> settled p st.
Proof.
  induction 1 as [p | p st p' Hr IH | p st input key p' Hr IH Hf Hparent].
  - apply mount_settled.
  - destruct IH as (Hup & Hlo & Hfo).
    apply settle_settled.
    + intros Hc. apply clamp_deps_unchanged in Hc. destruct Hc as [Hv _].
      rewrite <- Hv. exact Hup.
    + exact Hlo.
    + intros Hf' Hd. apply focus_deps_unchanged in Hd. destruct Hd as [Hd _].
      apply Hfo. congruence.
  - apply settle_settled.
    + intros Hc. apply clamp_deps_unchanged in Hc. destruct Hc as [Hv Hc].
      destruct IH as (Hup & _). rewrite <- Hv, <- Hc. exact Hup.
    + apply key_highlight_lower. exact IH.
    + intros Hf' Hd. apply focus_deps_unchanged in Hd. destruct Hd as [Hd _].
      congruence.
Qed.

(** A run of the uncontrolled component is a run of the component. *)
Lemma uncontrolled_press_reachable (ps : Props * State)
    (ev : jsstring * Key) :
  reachable (fst ps) (snd ps) ->
  reachable (fst (uncontrolled_press ps ev)) (snd (uncontrolled_press ps ev)).
Proof.
  destruct ps as [p st]. destruct ev as [input key]. cbn [fst snd].
  intros Hr. unfold uncontrolled_press.
  destruct (focus p) eqn:Hf; cbn [fst snd]; [|exact Hr].
  apply reach_key; [exact Hr | exact Hf |].
  intros Hc _. unfold value_after. rewrite Hc. cbn [List.last].
  destruct p; reflexivity.
Qed.

Lemma uncontrolled_run_reachable (p : Props) (evs : list (jsstring * Key)) :
  reachable (fst (uncontrolled_run p evs)) (snd (uncontrolled_run p evs)).
Proof.
  unfold uncontrolled_run.
  assert (H : forall ps, reachable (fst ps) (snd ps) ->
              reachable (fst (fold_left uncontrolled_press evs ps))
                        (snd (fold_left uncontrolled_press evs ps))).
  { induction evs as [|ev evs IH]; intros ps Hps; [exact Hps|].
    cbn [fold_left]. apply IH. apply uncontrolled_press_reachable.
    exact Hps. }
  apply (H (p, mount p)). apply reach_mount.
Qed.

(** C9.  When [focus] goes from true to false, the reconciliation that
    follows leaves [isHighlighted] false, whatever [highlightOnFocus] and the
    state before were (the effect itself clears it whenever it runs without
    focus); and in every state the component reaches, [isHighlighted] is
    false while [focus] is false. *)
Theorem blur_clears_highlight :
  forall (p : Props) (st : State),
    focus p = false ->
    isHighlighted (run_effect (focus_effect p) st) = false
    /\ (forall (p0 : Props) (st0 : State),
          focus p0 = true ->
          isHighlighted (commit p0 st0 p st) = false
          /\ isHighlighted (settle p0 st0 p st) = false)
    /\ (reachable p st -> isHighlighted st = false).
Proof.
  intros p st Hf. split; [|split].
  - apply focus_effect_blur. exact Hf.
  - intros p0 st0 Hf0.
    assert (Hd : focus_deps_changed p0 p = true).
    { apply focus_changed_deps. congruence. }
    assert (Hc : isHighlighted (commit p0 st0 p st) = false).
    { unfold commit. rewrite Hd.
      destruct (clamp_deps_changed p0 st0 p st).
      - destruct (clamp_effect_frame p st (run_effect (focus_effect p) st))
          as [E _].
        rewrite E. apply focus_effect_blur. exact Hf.
      - apply focus_effect_blur. exact Hf. }
    split; [exact Hc|].
    unfold settle. rewrite recommit_unfold.
    destruct (negb (cursorOffset st =? cursorOffset (commit p0 st0 p st))).
    + destruct (clamp_effect_frame p (commit p0 st0 p st)
                  (commit p0 st0 p st)) as [E _].
      rewrite E. exact Hc.
    + exact Hc.
  - intros Hr. apply reachable_settled in Hr.
    destruct Hr as (_ & _ & Hfo). apply Hfo. exact Hf.
Qed.

Lemma blur_clears_highlight_witness :
  isHighlighted
    (settle (mkProps (lit "abc") [] true None false true true true)
            (mkState 3 0 true)
            (mkProps (lit "abc") [] false None false true true true)
            (mkState 3 0 true)) = false.
Proof.
  destruct (blur_clears_highlight
              (mkProps (lit "abc") [] false None false true true true)
              (mkState 3 0 true) eq_refl) as (_ & H & _).
  destruct (H (mkProps (lit "abc") [] true None false true true true)
              (mkState 3 0 true) eq_refl) as [_ H2].
  exact H2.
Defined.

(* ================================================================== *)
(** ** Typing over a highlighted value                                 *)
(* ================================================================== *)

Lemma handler_highlighted (p : Props) (st : State) (s : jsstring) (key : Key) :
  printable s key = true ->
  isHighlighted st = true ->
  0 <= cursorOffset st <= len (value p) ->
  useInput_handler p st s key = typed_over p s.
Proof.
  intros Hp Hh Hk.
  pose proof Hp as Hp'. apply printable_spec in Hp'.
  destruct Hp' as (Hi & Hr & _).
  rewrite (handler_editing p st s key Hi Hr).
  rewrite (clamp_in_range p st _ Hk).
  rewrite (edit_printable p st s key Hp). rewrite Hh.
  reflexivity.
Qed.

(** A commit in which the focus effect runs with [focus] and
    [highlightOnFocus] leaves the value highlighted, the cursor at its end. *)
Lemma focus_commit_highlights (p : Props) (st : State) (p' : Props)
    (st' : State) :
  focus_deps_changed p p' = true ->
  focus p' = true -> highlightOnFocus p' = true ->
  settle p st p' st' = mkState (len (value p')) (cursorWidth st') true.
Proof.
  intros Hd Hf Hh.
  assert (Hc : commit p st p' st' =
               mkState (len (value p')) (cursorWidth st') true).
  { unfold commit. rewrite Hd.
    rewrite (focus_effect_highlight p' st' Hf Hh).
    unfold clamp_effect.
    destruct (clamp_deps_changed p st p' st'); [|reflexivity].
    destruct (cursorOffset st' >? len (value p')); reflexivity. }
  unfold settle. rewrite recommit_unfold, Hc.
  unfold clamp_effect. cbn [cursorOffset].
  assert (E : (len (value p') >? len (value p')) = false).
  { rewrite Z.gtb_ltb. apply Z.ltb_ge. lia. }
  rewrite E.
  destruct (negb (cursorOffset st' =? len (value p'))); reflexivity.
Qed.

Lemma mount_highlights (p : Props) :
  focus p = true -> highlightOnFocus p = true ->
  mount p = mkState (len (value p)) 0 true.
Proof.
  intros Hf Hh. unfold mount.
  rewrite (focus_effect_highlight p (initial_state p) Hf Hh).
  unfold initial_state, clamp_effect. cbn [cursorOffset cursorWidth].
  assert (E : (len (value p) >? len (value p)) = false).
  { rewrite Z.gtb_ltb. apply Z.ltb_ge. lia. }
  rewrite E. cbn [run_effect].
  rewrite recommit_unfold. unfold clamp_effect. cbn [cursorOffset].
  rewrite E, Z.eqb_refl. reflexivity.
Qed.

(** C3, as the code has it.  In every state the component reaches with the
    value highlighted, a printable input [s] makes the handler replace the
    whole value by [s] ([onChange(s)], unless [s] is the value already), set
    the cursor to [length s] and clear the highlight.  The value is
    highlighted right after the focus effect has run with [focus] and
    [highlightOnFocus] true -- at mount, or after a change of either prop --
    so a printable keystroke that arrives then, the highlight still set,
    replaces the whole value. *)
Theorem highlighted_keystroke_replaces_value :
  forall (p : Props) (st : State) (s : jsstring) (key : Key),
    reachable p st ->
    printable s key = true ->
    (isHighlighted st = true ->
     useInput_handler p st s key = typed_over p s
     /\ value_after p (useInput_handler p st s key) = s
     /\ state_after st (useInput_handler p st s key) =
        mkState (len s) (if len s >? 1 then len s else 0) false)
    /\ (forall p' : Props,
          focus p' = true -> highlightOnFocus p' = true ->
          focus_deps_changed p p' = true ->
          isHighlighted (settle p st p' st) = true
          /\ useInput_handler p' (settle p st p' st) s key = typed_over p' s)
    /\ (focus p = true -> highlightOnFocus p = true ->
        isHighlighted (mount p) = true
        /\ useInput_handler p (mount p) s key = typed_over p s).
Proof.
  intros p st s key Hr Hp.
  assert (Hgen : forall q sq, reachable q sq -> isHighlighted sq = true ->
                   useInput_handler q sq s key = typed_over q s).
  { intros q sq Hq Hh. apply handler_highlighted; [exact Hp | exact Hh |].
    apply reachable_settled in Hq. destruct Hq as (Hup & Hlo & _).
    specialize (Hlo Hh). lia. }
  split; [|split].
  - intros Hh. rewrite (Hgen p st Hr Hh). unfold typed_over, value_after.
    destruct (str_eqb s (value p)) eqn:E.
    + apply str_eqb_eq in E. cbn. repeat split. symmetry. exact E.
    + cbn. repeat split.
  - intros p' Hf Hh Hd.
    assert (Hi : isHighlighted (settle p st p' st) = true).
    { rewrite (focus_commit_highlights p st p' st Hd Hf Hh). reflexivity. }
    split; [exact Hi|].
    apply Hgen; [|exact Hi]. apply reach_props. exact Hr.
  - intros Hf Hh.
    assert (Hi : isHighlighted (mount p) = true).
    { rewrite (mount_highlights p Hf Hh). reflexivity. }
    split; [exact Hi|].
    apply Hgen; [|exact Hi]. apply reach_mount.
Qed.

Lemma highlighted_keystroke_replaces_value_witness :
  useInput_handler (mkProps (lit "abc") [] true None false true true true)
    (mount (mkProps (lit "abc") [] true None false true true true))
    (lit "x") no_flags =
  [SetState (mkState 1 0 false); OnChange (lit "x")]
  /\ useInput_handler (mkProps (lit "abc") [] true None false true true true)
       (settle (mkProps (lit "abc") [] false None false true true true)
               (mount (mkProps (lit "abc") [] false None false true true true))
               (mkProps (lit "abc") [] true None false true true true)
               (mount (mkProps (lit "abc") [] false None false true true true)))
       (lit "xy") no_flags =
     [SetState (mkState 2 2 false); OnChange (lit "xy")].
Proof.
  split.
  - destruct (highlighted_keystroke_replaces_value
                (mkProps (lit "abc") [] true None false true true true)
                (mount (mkProps (lit "abc") [] true None false true true true))
                (lit "x") no_flags
                (reach_mount _) eq_refl) as (H & _ & _).
    destruct (H eq_refl) as (H1 & _).
    exact H1.
  - destruct (highlighted_keystroke_replaces_value
                (mkProps (lit "abc") [] false None false true true true)
                (mount (mkProps (lit "abc") [] false None false true true true))
                (lit "xy") no_flags
                (reach_mount _) eq_refl) as (_ & H & _).
    destruct (H (mkProps (lit "abc") [] true None false true true true)
                eq_refl eq_refl eq_refl) as [_ H2].
    exact H2.
Defined.

(** C3 as stated fails: mounted on "abc" with [focus] and
    [highlightOnFocus], a left arrow clears the highlight (lines 201-205), and
    the first printable keystroke after it, "x", is spliced in at the cursor:
    the value becomes "abxc", not "x". *)
Lemma left_arrow_then_key_inserts :
  uncontrolled_run (mkProps (lit "abc") [] true None false true true true)
                   [(([] : jsstring), key_left); (lit "x", no_flags)]
  = (mkProps (lit "abxc") [] true None false true true true,
     mkState 3 0 false)
  /\ value (fst (uncontrolled_run
                   (mkProps (lit "abc") [] true None false true true true)
                   [(([] : jsstring), key_left); (lit "x", no_flags)]))
     <> lit "x".
Proof. split; [reflexivity | discriminate]. Qed.

(* ================================================================== *)
(** ** Cursor bounds                                                   *)
(* ================================================================== *)

(** C1, evaluated.  On the value "a" with the cursor at 0, a left arrow
    makes the handler set the cursor offset to -1: lines 240-246 test the
    offset of the current state, not [nextCursorOffset].  The uncontrolled
    component mounted on "a" is in that state, settled, after two left
    arrows.  A right arrow at the end of the value sets the offset to
    [length + 1]. *)
Theorem left_arrow_at_zero_leaves_range :
  useInput_handler (default_props (lit "a")) (mkState 0 0 false) [] key_left
  = [SetState (mkState (-1) 0 false)]
  /\ uncontrolled_run (default_props (lit "a"))
       [([], key_left); ([], key_left)]
     = (default_props (lit "a"), mkState (-1) 0 false)
  /\ useInput_handler (default_props (lit "a")) (mkState 1 0 false) []
       key_right
     = [SetState (mkState 2 0 false)].
Proof. repeat split; reflexivity. Qed.

(** The upper bound does hold between events: the clamp effect restores
    it. *)
Lemma reachable_upper_bound (p : Props) (st : State) :
  reachable p st -> cursorOffset st <= len (value p).
Proof. intros H. apply reachable_settled in H. apply H. Qed.

(* ================================================================== *)
(** ** The change callback                                             *)
(* ================================================================== *)

Lemma onChange_calls_handler (p : Props) (st : State) (input : jsstring)
    (key : Key) :
  onChange_calls (useInput_handler p st input key) =
  if str_eqb (resulting_value p st input key) (value p) then []
  else [resulting_value p st input key].
Proof.
  unfold resulting_value.
  destruct (ignored input key) eqn:Hi.
  - unfold useInput_handler. rewrite Hi. cbn [orb].
    rewrite str_eqb_refl. reflexivity.
  - destruct (return_ key) eqn:Hr; cbn [orb].
    + unfold useInput_handler. rewrite Hi, Hr. rewrite str_eqb_refl.
      destruct (onSubmit p); reflexivity.
    + rewrite (handler_editing p st input key Hi Hr).
      rewrite nextValue_clamp.
      destruct (str_eqb (nextValue (edit p st input key)) (value p));
        reflexivity.
Qed.

Lemma arrow_keeps_value (p : Props) (st : State) (input : jsstring)
    (key : Key) :
  leftArrow key = true \/ rightArrow key = true ->
  resulting_value p st input key = value p.
Proof.
  intros H. unfold resulting_value.
  destruct (ignored input key || return_ key); [reflexivity|].
  rewrite nextValue_clamp. unfold edit.
  destruct (leftArrow key) eqn:Hl.
  - destruct (showCursor p); reflexivity.
  - destruct H as [H|H]; [discriminate|]. rewrite H.
    destruct (showCursor p); reflexivity.
Qed.

Lemma empty_input_value (p : Props) (st : State) :
  resulting_value p st [] no_flags =
  if isHighlighted st then [] else value p.
Proof.
  unfold resulting_value. cbn [ignored no_flags upArrow downArrow ctrl tab
    shift return_ orb andb].
  rewrite nextValue_clamp.
  rewrite (edit_printable p st [] no_flags eq_refl).
  cbn [nextValue]. destruct (isHighlighted st); [reflexivity|].
  apply splice_empty.
Qed.

(** C5, as the code has it.  For every key event, [onChange] is called once
    with the new value when the value the event leaves differs from the
    value before, and not at all otherwise; an event with an arrow flag
    never calls it; an empty input with no flag calls it only when the value
    is highlighted and not empty, and then with the empty string. *)
Theorem change_callback_iff_value_differs :
  forall (p : Props) (st : State) (input : jsstring) (key : Key),
    onChange_calls (useInput_handler p st input key) =
      (if str_eqb (resulting_value p st input key) (value p) then []
       else [resulting_value p st input key])
    /\ (leftArrow key = true \/ rightArrow key = true ->
        onChange_calls (useInput_handler p st input key) = [])
    /\ onChange_calls (useInput_handler p st [] no_flags) =
       (if isHighlighted st && truthy (value p) then [[]] else []).
Proof.
  intros p st input key. split; [|split].
  - apply onChange_calls_handler.
  - intros H. rewrite onChange_calls_handler.
    rewrite (arrow_keeps_value p st input key H).
    rewrite str_eqb_refl. reflexivity.
  - rewrite onChange_calls_handler, empty_input_value.
    destruct (isHighlighted st); cbn [andb].
    + destruct (value p) as [|c v]; reflexivity.
    + rewrite str_eqb_refl. reflexivity.
Qed.

Lemma change_callback_iff_value_differs_witness :
  onChange_calls
    (useInput_handler (default_props (lit "abc")) (mkState 2 0 false)
                      [] key_left) = [].
Proof.
  destruct (change_callback_iff_value_differs
              (default_props (lit "abc")) (mkState 2 0 false) [] key_left)
    as (_ & H & _).
  exact (H (or_introl eq_refl)).
Defined.

(** C5 as stated fails: with "abc" highlighted at mount, an empty input with
    no flag makes the handler call [onChange("")]. *)
Lemma empty_input_erases_highlighted_value :
  reachable (mkProps (lit "abc") [] true None false true true true)
            (mkState 3 0 true)
  /\ onChange_calls
       (useInput_handler (mkProps (lit "abc") [] true None false true true true)
                         (mkState 3 0 true) [] no_flags) = [lit ""]
  /\ onChange_calls
       (useInput_handler (mkProps (lit "abc") [] true None false true true true)
                         (mkState 3 0 true) [] no_flags) <> [].
Proof.
  split; [|split].
  - exact (reach_mount (mkProps (lit "abc") [] true None false true true true)).
  - reflexivity.
  - discriminate.
Qed.

(** C6 as stated fails: a paste of "xy" into the empty field that the parent
    turns down leaves the cursor at 0 with cursor width 2, and a backspace
    there sets the cursor width to 0. *)
Lemma backspace_at_zero_changes_width :
  reachable (default_props (lit "")) (mkState 0 2 false)
  /\ state_after (mkState 0 2 false)
       (useInput_handler (default_props (lit "")) (mkState 0 2 false)
                         [] key_backspace)
     = mkState 0 0 false
  /\ state_after (mkState 0 2 false)
       (useInput_handler (default_props (lit "")) (mkState 0 2 false)
                         [] key_backspace)
     <> mkState 0 2 false.
Proof.
  split; [|split].
  - apply (reach_key (default_props (lit "")) (mount (default_props (lit "")))
             (lit "xy") no_flags (default_props (lit ""))).
    + apply reach_mount.
    + reflexivity.
    + intros H. discriminate H.
  - reflexivity.
  - discriminate.
Qed.

(* ================================================================== *)
(** ** Keys delivered with ctrl                                        *)
(* ================================================================== *)

(** C10, as the code has it.  A key event with [ctrl] whose input is one
    letter other than "c" is not ignored and reaches the last branch: the
    letter is spliced into the value at the cursor and [onChange] is called
    with the result, or, when the value is highlighted, the letter replaces
    the value and [onChange] is called with it unless the value is that
    letter already. *)
Theorem ctrl_letter_is_typed :
  forall (p : Props) (st : State) (c : code_unit) (key : Key),
    ctrl_only key = true ->
    is_letter c = true ->
    [c] <> lit "c" ->
    ignored [c] key = false
    /\ printable [c] key = true
    /\ resulting_value p st [c] key =
       (if isHighlighted st then [c]
        else slice (value p) 0 (cursorOffset st) ++ [c]
             ++ slice (value p) (cursorOffset st) (len (value p)))
    /\ onChange_calls (useInput_handler p st [c] key) =
       (if isHighlighted st && str_eqb [c] (value p) then []
        else [resulting_value p st [c] key]).
Proof.
  intros p st c key Hk _ Hc.
  pose proof (ctrl_only_printable [c] key Hk Hc) as Hp.
  pose proof Hp as Hp'. apply printable_spec in Hp'.
  destruct Hp' as (Hi & Hr & _).
  assert (Hv : resulting_value p st [c] key =
               (if isHighlighted st then [c]
                else slice (value p) 0 (cursorOffset st) ++ [c]
                     ++ slice (value p) (cursorOffset st) (len (value p)))).
  { unfold resulting_value. rewrite Hi, Hr. cbn [orb].
    rewrite nextValue_clamp, (edit_printable p st [c] key Hp).
    reflexivity. }
  repeat split; try assumption.
  rewrite onChange_calls_handler. rewrite Hv.
  destruct (isHighlighted st); cbn [andb].
  - reflexivity.
  - assert (Hd : str_eqb (slice (value p) 0 (cursorOffset st) ++ [c]
                          ++ slice (value p) (cursorOffset st) (len (value p)))
                         (value p) = false).
    { apply str_eqb_neq. apply splice_differs. discriminate. }
    rewrite Hd. reflexivity.
Qed.

Lemma ctrl_letter_is_typed_witness :
  onChange_calls
    (useInput_handler (default_props (lit "bc")) (mkState 0 0 false)
                      (lit "a") key_ctrl) = [lit "abc"].
Proof.
  destruct (ctrl_letter_is_typed
              (default_props (lit "bc")) (mkState 0 0 false) 97 key_ctrl
              eq_refl eq_refl) as (_ & _ & _ & H).
  - discriminate.
  - exact H.
Defined.

(** C10 as stated fails: with the value "a" highlighted at mount, ctrl+a
    replaces "a" by "a" and [onChange] is not called. *)
Lemma ctrl_letter_over_same_value_is_silent :
  reachable (mkProps (lit "a") [] true None false true true true)
            (mkState 1 0 true)
  /\ ignored (lit "a") key_ctrl = false
  /\ useInput_handler (mkProps (lit "a") [] true None false true true true)
                      (mkState 1 0 true) (lit "a") key_ctrl
     = [SetState (mkState 1 0 false)]
  /\ onChange_calls
       (useInput_handler (mkProps (lit "a") [] true None false true true true)
                         (mkState 1 0 true) (lit "a") key_ctrl) = [].
Proof.
  split; [|repeat split].
  exact (reach_mount (mkProps (lit "a") [] true None false true true true)).
Qed.

(* ================================================================== *)
(** ** Rendering                                                       *)
(* ================================================================== *)

Lemma masked_value_mask (p : Props) (m : jsstring) :
  mask p = Some m -> m <> [] ->
  masked_value p = JS.repeat m (List.length (value p)).
Proof.
  intros Hm Hne. unfold masked_value. rewrite Hm.
  destruct m; [contradiction|reflexivity].
Qed.

(** C7, as the code has it.  With a non-empty mask [m], the displayed value
    is [m] repeated [length v] times; its length is [length m * length v],
    which is [length v] when [m] is one code unit. *)
Theorem mask_repeats_per_code_unit :
  forall (p : Props) (m : jsstring),
    mask p = Some m ->
    m <> [] ->
    masked_value p = JS.repeat m (List.length (value p))
    /\ len (masked_value p) = len m * len (value p)
    /\ (len m = 1 -> len (masked_value p) = len (value p)).
Proof.
  intros p m Hm Hne.
  rewrite (masked_value_mask p m Hm Hne). rewrite len_repeat.
  fold (len (value p)). repeat split; intros; lia.
Qed.

Lemma mask_repeats_per_code_unit_witness :
  masked_value (with_mask (default_props (lit "Hello")) (lit "*"))
  = lit "*****"
  /\ len (masked_value (with_mask (default_props (lit "Hello")) (lit "*")))
     = len (lit "Hello").
Proof.
  destruct (mask_repeats_per_code_unit
              (with_mask (default_props (lit "Hello")) (lit "*")) (lit "*")
              eq_refl) as (H1 & _ & H3).
  - discriminate.
  - split; [exact H1 | exact (H3 eq_refl)].
Defined.

(** C7 as stated fails: the mask "ab" on the value "xy" displays "abab", of
    length 4. *)
Lemma two_unit_mask_doubles_length :
  masked_value (with_mask (default_props (lit "xy")) (lit "ab")) = lit "abab"
  /\ len (masked_value (with_mask (default_props (lit "xy")) (lit "ab")))
     <> len (value (with_mask (default_props (lit "xy")) (lit "ab"))).
Proof. split; [reflexivity | discriminate]. Qed.

Lemma strip_app (a b : styled) :
  strip_styles (a ++ b) = strip_styles a ++ strip_styles b.
Proof. unfold strip_styles. apply map_app. Qed.

Lemma strip_plain (s : jsstring) : strip_styles (plain s) = s.
Proof.
  unfold strip_styles, plain. rewrite map_map. cbn [snd]. apply map_id.
Qed.

Lemma strip_inverse (s : jsstring) : strip_styles (chalk_inverse s) = s.
Proof.
  unfold strip_styles, chalk_inverse. rewrite map_map. cbn [snd].
  apply map_id.
Qed.

Lemma strip_grey (s : jsstring) : strip_styles (chalk_grey s) = s.
Proof.
  unfold strip_styles, chalk_grey. rewrite map_map. cbn [snd]. apply map_id.
Qed.

(** The loop adds every character it is given, styled or not. *)
Lemma strip_cursor_loop (chars : list jsstring) (i lo hi : Z) (acc : styled) :
  strip_styles (cursor_loop chars i lo hi acc) =
  strip_styles acc ++ List.concat chars.
Proof.
  revert i acc. induction chars as [|char rest IH]; intros i acc.
  - cbn [cursor_loop List.concat]. rewrite app_nil_r. reflexivity.
  - cbn [cursor_loop List.concat]. rewrite IH, strip_app.
    destruct ((i >=? lo) && (i <=? hi));
      [rewrite strip_inverse | rewrite strip_plain];
      rewrite <- app_assoc; reflexivity.
Qed.

Lemma strip_renderedValue (p : Props) (st : State) :
  strip_styles (renderedValue p st) =
  masked_value p ++ (if cursor_space p st then lit " " else []).
Proof.
  unfold renderedValue, cursor_space.
  destruct (cursor_mode p st); cbn [andb].
  - destruct (len (masked_value p) >? 0) eqn:El; cbn [andb negb orb].
    + destruct (cursorOffset st =? len (masked_value p)).
      * rewrite strip_app, strip_cursor_loop, concat_code_points,
          strip_inverse. reflexivity.
      * rewrite strip_cursor_loop, concat_code_points.
        cbn [strip_styles map app]. symmetry. apply app_nil_r.
    + rewrite strip_cursor_loop, concat_code_points, strip_inverse.
      assert (E : masked_value p = []).
      { apply len_nil_iff. pose proof (len_nonneg (masked_value p)).
        zify_tests. lia. }
      rewrite E. reflexivity.
  - rewrite app_nil_r.
    destruct (isHighlighted st); [apply strip_inverse | apply strip_plain].
Qed.

(** C8, as the code has it.  The renderer always yields a string.  Without
    its styling it is the placeholder when the placeholder is shown (it is
    non-empty and the value is empty); otherwise it is the displayed value,
    followed by one space exactly when the cursor is shown
    ([showCursor && focus && !isHighlighted]) and the value is empty or the
    cursor offset is its length. *)
Theorem stripped_render_text :
  forall (p : Props) (st : State),
    exists t : styled,
      render p st = Some t
      /\ strip_styles t =
         (if shows_placeholder p then placeholder p
          else masked_value p ++ (if cursor_space p st then lit " " else [])).
Proof.
  intros p st. unfold render, shows_placeholder.
  destruct (truthy (placeholder p)) eqn:Ep; cbn [andb].
  - destruct (len (masked_value p) >? 0) eqn:El; cbn [negb].
    + eexists. split; [reflexivity|]. apply strip_renderedValue.
    + unfold renderedPlaceholder. rewrite Ep.
      rewrite <- truthy_len, Ep.
      destruct (cursor_mode p st).
      * eexists. split; [reflexivity|].
        rewrite strip_app, strip_inverse, strip_grey.
        apply char_at0_slice_from.
      * destruct (isHighlighted st); eexists; (split; [reflexivity|]);
          [apply strip_inverse | apply strip_grey].
  - eexists. split; [reflexivity|]. apply strip_renderedValue.
Qed.

(** C8 as stated fails: "abc" with the cursor at its end renders as "abc"
    and an inverse space, and the empty value as an inverse space. *)
Lemma cursor_adds_a_space :
  render (default_props (lit "abc")) (mkState 3 0 false)
  = Some (plain (lit "abc") ++ chalk_inverse (lit " "))
  /\ option_map strip_styles
       (render (default_props (lit "abc")) (mkState 3 0 false))
     <> Some (masked_value (default_props (lit "abc")))
  /\ render (default_props (lit "")) (mkState 0 0 false)
     = Some (chalk_inverse (lit " ")).
Proof. repeat split. discriminate. Qed.

(* ================================================================== *)
(** ** Editing inside the value                                        *)
(* ================================================================== *)

(** A non-empty input is spliced in at the cursor. *)
Lemma handler_insert (p : Props) (st : State) (s : jsstring) (key : Key) :
  printable s key = true ->
  s <> [] ->
  isHighlighted st = false ->
  0 <= cursorOffset st <= len (value p) ->
  useInput_handler p st s key =
  [SetState (mkState (cursorOffset st + len s)
                     (if len s >? 1 then len s else 0) false);
   OnChange (firstn (Z.to_nat (cursorOffset st)) (value p) ++ s
             ++ skipn (Z.to_nat (cursorOffset st)) (value p))].
Proof.
  intros Hp Hne Hh Hk.
  pose proof Hp as Hp'. apply printable_spec in Hp'.
  destruct Hp' as (Hi & Hr & _).
  rewrite (handler_editing p st s key Hi Hr).
  rewrite (clamp_in_range p st _ Hk).
  rewrite (edit_printable p st s key Hp). rewrite Hh.
  cbn [nextCursorOffset nextValue nextCursorWidth nextIsHighlighted].
  pose proof (splice_differs (value p) s (cursorOffset st) Hne) as Hd.
  apply str_eqb_neq in Hd. rewrite Hd.
  rewrite (slice_prefix (value p) (cursorOffset st) Hk).
  rewrite (slice_suffix (value p) (cursorOffset st) Hk).
  reflexivity.
Qed.

Lemma edit_erasing_inside (p : Props) (st : State) (input : jsstring)
    (key : Key) :
  erasing input key = true -> 0 < cursorOffset st ->
  edit p st input key =
  mkNext (cursorOffset st - 1)
         (slice (value p) 0 (cursorOffset st - 1)
          ++ slice (value p) (cursorOffset st) (len (value p)))
         0 false.
Proof.
  intros H H0. apply erasing_spec in H.
  destruct H as (_ & _ & Hl & Hr & Hb).
  unfold edit. rewrite Hl, Hr, Hb.
  assert (E : (cursorOffset st >? 0) = true) by (apply Z.gtb_lt; lia).
  rewrite E. reflexivity.
Qed.

Lemma len_firstn_skipn (v : jsstring) (k : Z) :
  0 < k <= len v ->
  len (firstn (Z.to_nat (k - 1)) v ++ skipn (Z.to_nat k) v) = len v - 1.
Proof.
  intros Hk. unfold len in *.
  rewrite length_app, length_firstn, length_skipn. lia.
Qed.

(** The code unit before the cursor is removed. *)
Lemma handler_erase (p : Props) (st : State) (input : jsstring) (key : Key) :
  erasing input key = true ->
  0 < cursorOffset st <= len (value p) ->
  useInput_handler p st input key =
  [SetState (mkState (cursorOffset st - 1) 0 false);
   OnChange (firstn (Z.to_nat (cursorOffset st - 1)) (value p)
             ++ skipn (Z.to_nat (cursorOffset st)) (value p))].
Proof.
  intros He Hk.
  pose proof He as He'. apply erasing_spec in He'.
  destruct He' as (Hi & Hr & _).
  rewrite (handler_editing p st input key Hi Hr).
  rewrite (clamp_in_range p st _) by lia.
  rewrite (edit_erasing_inside p st input key He) by lia.
  cbn [nextCursorOffset nextValue nextCursorWidth nextIsHighlighted].
  rewrite (slice_prefix (value p) (cursorOffset st - 1)) by lia.
  rewrite (slice_suffix (value p) (cursorOffset st)) by lia.
  assert (Hd : str_eqb (firstn (Z.to_nat (cursorOffset st - 1)) (value p)
                         ++ skipn (Z.to_nat (cursorOffset st)) (value p))
                       (value p) = false).
  { apply str_eqb_neq. intros Heq.
    pose proof (len_firstn_skipn (value p) (cursorOffset st) Hk) as Hl.
    rewrite Heq in Hl. lia. }
  rewrite Hd. reflexivity.
Qed.

(** X1.  A paste -- a printable input [s] of more than one code unit --
    with nothing highlighted and the cursor at [k] inside the value splices
    [s] in at [k], moves the cursor to [k + length s] and sets the cursor
    width to [length s]; the new value is longer by [length s]. *)
Theorem paste_sets_cursor_width :
  forall (p : Props) (st : State) (s : jsstring) (key : Key),
    printable s key = true ->
    1 < len s ->
    isHighlighted st = false ->
    0 <= cursorOffset st <= len (value p) ->
    useInput_handler p st s key =
      [SetState (mkState (cursorOffset st + len s) (len s) false);
       OnChange (firstn (Z.to_nat (cursorOffset st)) (value p) ++ s
                 ++ skipn (Z.to_nat (cursorOffset st)) (value p))]
    /\ len (value_after p (useInput_handler p st s key))
       = len (value p) + len s.
Proof.
  intros p st s key Hp Hl Hh Hk.
  assert (Hne : s <> []).
  { intros E. subst s. unfold len in Hl. simpl in Hl. lia. }
  rewrite (handler_insert p st s key Hp Hne Hh Hk).
  assert (E : (len s >? 1) = true) by (apply Z.gtb_lt; lia).
  rewrite E. split; [reflexivity|].
  unfold value_after. cbn [onChange_calls List.last].
  rewrite !len_app.
  pose proof (firstn_skipn (Z.to_nat (cursorOffset st)) (value p)) as Hfs.
  assert (Hs : len (firstn (Z.to_nat (cursorOffset st)) (value p))
               + len (skipn (Z.to_nat (cursorOffset st)) (value p))
               = len (value p)).
  { rewrite <- len_app, Hfs. reflexivity. }
  lia.
Qed.

Lemma paste_sets_cursor_width_witness :
  useInput_handler (default_props (lit "ad")) (mkState 1 0 false)
                   (lit "bc") no_flags
  = [SetState (mkState 3 2 false); OnChange (lit "abcd")].
Proof.
  destruct (paste_sets_cursor_width
              (default_props (lit "ad")) (mkState 1 0 false) (lit "bc")
              no_flags eq_refl) as [H _].
  - unfold len. simpl. lia.
  - reflexivity.
  - unfold len. simpl. lia.
  - exact H.
Defined.

(** X2.  A backspace or delete event with the cursor at [k],
    [0 < k <= length v], removes the code unit before the cursor -- the value
    becomes [v[0:k-1] + v[k:]], one unit shorter -- moves the cursor to
    [k - 1] and clears the highlight.  This holds whether or not the value is
    highlighted: erasing a highlighted value removes one unit, not the
    value. *)
Theorem erase_removes_unit_before_cursor :
  forall (p : Props) (st : State) (input : jsstring) (key : Key),
    erasing input key = true ->
    0 < cursorOffset st <= len (value p) ->
    useInput_handler p st input key =
      [SetState (mkState (cursorOffset st - 1) 0 false);
       OnChange (firstn (Z.to_nat (cursorOffset st - 1)) (value p)
                 ++ skipn (Z.to_nat (cursorOffset st)) (value p))]
    /\ len (value_after p (useInput_handler p st input key))
       = len (value p) - 1.
Proof.
  intros p st input key He Hk.
  rewrite (handler_erase p st input key He Hk). split; [reflexivity|].
  unfold value_after. cbn [onChange_calls List.last].
  apply len_firstn_skipn. exact Hk.
Qed.

Lemma erase_removes_unit_before_cursor_witness :
  useInput_handler (mkProps (lit "abc") [] true None false true true true)
                   (mkState 3 0 true) [] key_delete
  = [SetState (mkState 2 0 false); OnChange (lit "ab")].
Proof.
  destruct (erase_removes_unit_before_cursor
              (mkProps (lit "abc") [] true None false true true true)
              (mkState 3 0 true) [] key_delete eq_refl) as [H _].
  - unfold len. simpl. lia.
  - exact H.
Defined.

(* ================================================================== *)
(** ** Key events on the uncontrolled component                        *)
(* ================================================================== *)

Lemma with_value_same (p : Props) : with_value p (value p) = p.
Proof. destruct p; reflexivity. Qed.

Lemma with_value_twice (p : Props) (a b : jsstring) :
  with_value (with_value p a) b = with_value p b.
Proof. reflexivity. Qed.

Lemma with_value_focus_deps (p : Props) (v : jsstring) :
  focus_deps_changed p (with_value p v) = false.
Proof.
  unfold focus_deps_changed, with_value. cbn [focus highlightOnFocus].
  rewrite !Bool.eqb_reflx. reflexivity.
Qed.

(** A state whose offset does not exceed the value is left alone by the
    effects when the focus props did not change. *)
Lemma settle_in_range (p : Props) (st : State) (p' : Props) (st' : State) :
  focus_deps_changed p p' = false ->
  cursorOffset st' <= len (value p') ->
  settle p st p' st' = st'.
Proof.
  intros Hd Hup.
  assert (E : (cursorOffset st' >? len (value p')) = false).
  { rewrite Z.gtb_ltb. apply Z.ltb_ge. exact Hup. }
  assert (Hc : commit p st p' st' = st').
  { unfold commit, clamp_effect. rewrite Hd, E.
    destruct (clamp_deps_changed p st p' st'); reflexivity. }
  unfold settle. rewrite Hc, recommit_unfold, Z.eqb_refl. reflexivity.
Qed.

(** An offset beyond the value, set by the handler, is brought back to the
    end of the value. *)
Lemma settle_beyond (p : Props) (st st' : State) :
  cursorOffset st <> cursorOffset st' ->
  len (value p) < cursorOffset st' ->
  settle p st p st' =
  mkState (len (value p)) (cursorWidth st') (isHighlighted st').
Proof.
  intros Hne Hgt.
  assert (E : (cursorOffset st' >? len (value p)) = true)
    by (apply Z.gtb_lt; exact Hgt).
  assert (En : (cursorOffset st =? cursorOffset st') = false)
    by (apply Z.eqb_neq; exact Hne).
  assert (Hc : commit p st p st' =
               mkState (len (value p)) (cursorWidth st') (isHighlighted st')).
  { rewrite recommit_unfold, En. cbn [negb].
    unfold clamp_effect. rewrite E. reflexivity. }
  unfold settle. rewrite Hc, recommit_unfold.
  unfold clamp_effect. cbn [cursorOffset].
  assert (E3 : (len (value p) >? len (value p)) = false).
  { rewrite Z.gtb_ltb. apply Z.ltb_ge. lia. }
  rewrite E3.
  destruct (negb (cursorOffset st' =? len (value p))); reflexivity.
Qed.

Lemma settle_same (p : Props) (st : State) : settle p st p st = st.
Proof.
  unfold settle. rewrite !recommit_unfold, !Z.eqb_refl. reflexivity.
Qed.

Lemma uncontrolled_press_focused (p : Props) (st : State) (input : jsstring)
    (key : Key) :
  focus p = true ->
  uncontrolled_press (p, st) (input, key) =
  (with_value p (value_after p (useInput_handler p st input key)),
   settle p st
     (with_value p (value_after p (useInput_handler p st input key)))
     (state_after st (useInput_handler p st input key))).
Proof. intros Hf. unfold uncontrolled_press. rewrite Hf. reflexivity. Qed.

(** Typing one unit, or a longer input, into the uncontrolled component. *)
Lemma uncontrolled_insert (p : Props) (st : State) (s : jsstring) (key : Key) :
  focus p = true ->
  printable s key = true ->
  s <> [] ->
  isHighlighted st = false ->
  0 <= cursorOffset st <= len (value p) ->
  uncontrolled_press (p, st) (s, key) =
  (with_value p (firstn (Z.to_nat (cursorOffset st)) (value p) ++ s
                 ++ skipn (Z.to_nat (cursorOffset st)) (value p)),
   mkState (cursorOffset st + len s) (if len s >? 1 then len s else 0) false).
Proof.
  intros Hf Hp Hne Hh Hk.
  rewrite (uncontrolled_press_focused p st s key Hf).
  rewrite (handler_insert p st s key Hp Hne Hh Hk).
  unfold value_after. cbn [onChange_calls List.last state_after].
  rewrite settle_in_range; [reflexivity | apply with_value_focus_deps |].
  cbn [cursorOffset with_value value]. rewrite !len_app.
  pose proof (firstn_skipn (Z.to_nat (cursorOffset st)) (value p)) as Hfs.
  assert (Hs : len (firstn (Z.to_nat (cursorOffset st)) (value p))
               + len (skipn (Z.to_nat (cursorOffset st)) (value p))
               = len (value p)).
  { rewrite <- len_app, Hfs. reflexivity. }
  assert (Hfl : len (firstn (Z.to_nat (cursorOffset st)) (value p))
                = cursorOffset st).
  { unfold len in *. rewrite length_firstn. lia. }
  lia.
Qed.

Lemma uncontrolled_erase (p : Props) (st : State) (input : jsstring)
    (key : Key) :
  focus p = true ->
  erasing input key = true ->
  0 < cursorOffset st <= len (value p) ->
  uncontrolled_press (p, st) (input, key) =
  (with_value p (firstn (Z.to_nat (cursorOffset st - 1)) (value p)
                 ++ skipn (Z.to_nat (cursorOffset st)) (value p)),
   mkState (cursorOffset st - 1) 0 false).
Proof.
  intros Hf He Hk.
  rewrite (uncontrolled_press_focused p st input key Hf).
  rewrite (handler_erase p st input key He Hk).
  unfold value_after. cbn [onChange_calls List.last state_after].
  rewrite settle_in_range; [reflexivity | apply with_value_focus_deps |].
  cbn [cursorOffset with_value value].
  rewrite (len_firstn_skipn (value p) (cursorOffset st) Hk). lia.
Qed.

(** Removing the unit that was just put in at [n] gives the list back. *)
Lemma insert_then_remove (v : jsstring) (c : code_unit) (n : nat) :
  (n <= List.length v)%nat ->
  firstn n (firstn n v ++ [c] ++ skipn n v)
  ++ skipn (S n) (firstn n v ++ [c] ++ skipn n v) = v.
Proof.
  intros Hn.
  assert (Hl : List.length (firstn n v) = n) by (rewrite length_firstn; lia).
  rewrite firstn_app, skipn_app, Hl.
  rewrite (firstn_all2 (firstn n v)) by lia.
  rewrite (skipn_all2 (firstn n v)) by lia.
  replace (n - n)%nat with 0%nat by lia.
  replace (S n - n)%nat with 1%nat by lia.
  cbn [firstn skipn app]. rewrite app_nil_r. apply firstn_skipn.
Qed.

(** X3.  Typing a character and erasing it again is a round trip on the
    uncontrolled component: from the value [v] with the cursor at [k] inside
    it and nothing highlighted, a character key followed by a backspace or
    delete gives back the value [v] and the cursor [k] (cursor width 0, not
    highlighted). *)
Theorem type_then_erase_round_trip :
  forall (p : Props) (st : State) (c : code_unit) (key : Key)
         (input' : jsstring) (key' : Key),
    focus p = true ->
    no_special_flag key = true ->
    erasing input' key' = true ->
    isHighlighted st = false ->
    0 <= cursorOffset st <= len (value p) ->
    uncontrolled_press (uncontrolled_press (p, st) ([c], key)) (input', key')
    = (p, mkState (cursorOffset st) 0 false).
Proof.
  intros p st c key input' key' Hf Hkey He Hh Hk.
  pose proof (no_special_flag_printable [c] key Hkey) as Hp.
  set (v' := firstn (Z.to_nat (cursorOffset st)) (value p) ++ [c]
             ++ skipn (Z.to_nat (cursorOffset st)) (value p)).
  assert (H1 : uncontrolled_press (p, st) ([c], key) =
               (with_value p v', mkState (cursorOffset st + 1) 0 false)).
  { apply (uncontrolled_insert p st [c] key Hf Hp);
      try discriminate; assumption. }
  rewrite H1. clear H1.
  assert (Hlen : len v' = len (value p) + 1).
  { subst v'. rewrite !len_app.
    pose proof (firstn_skipn (Z.to_nat (cursorOffset st)) (value p)) as Hfs.
    assert (Hs : len (firstn (Z.to_nat (cursorOffset st)) (value p))
                 + len (skipn (Z.to_nat (cursorOffset st)) (value p))
                 = len (value p)).
    { rewrite <- len_app, Hfs. reflexivity. }
    change (len [c]) with 1. lia. }
  rewrite (uncontrolled_erase (with_value p v')
             (mkState (cursorOffset st + 1) 0 false) input' key').
  - cbn [cursorOffset with_value value]. rewrite with_value_twice.
    replace (cursorOffset st + 1 - 1) with (cursorOffset st) by lia.
    replace (Z.to_nat (cursorOffset st + 1))
      with (S (Z.to_nat (cursorOffset st))) by lia.
    subst v'. rewrite insert_then_remove.
    + rewrite with_value_same. reflexivity.
    + unfold len in Hk. lia.
  - exact Hf.
  - exact He.
  - cbn [cursorOffset with_value value]. lia.
Qed.

Lemma type_then_erase_round_trip_witness :
  uncontrolled_press
    (uncontrolled_press (default_props (lit "ac"), mkState 1 0 false)
                        (lit "b", no_flags))
    ([], key_backspace)
  = (default_props (lit "ac"), mkState 1 0 false).
Proof.
  apply (type_then_erase_round_trip
           (default_props (lit "ac")) (mkState 1 0 false) 98 no_flags
           [] key_backspace).
  - reflexivity.
  - reflexivity.
  - reflexivity.
  - reflexivity.
  - unfold len. simpl. lia.
Defined.

(* ================================================================== *)
(** ** Arrow keys, ignored keys, the shape of a trace                  *)
(* ================================================================== *)

Lemma handler_left (p : Props) (st : State) (input : jsstring) (key : Key) :
  ignored input key = false -> return_ key = false ->
  leftArrow key = true ->
  0 <= cursorOffset st <= len (value p) ->
  useInput_handler p st input key =
  [SetState (if showCursor p then mkState (cursorOffset st - 1) 0 false
             else mkState (cursorOffset st) 0 (isHighlighted st))].
Proof.
  intros Hi Hr Hl Hk.
  rewrite (handler_editing p st input key Hi Hr).
  rewrite (clamp_in_range p st _ Hk).
  unfold edit. rewrite Hl.
  destruct (showCursor p);
    cbn [nextCursorOffset nextValue nextCursorWidth nextIsHighlighted];
    rewrite str_eqb_refl; reflexivity.
Qed.

Lemma handler_right (p : Props) (st : State) (input : jsstring) (key : Key) :
  ignored input key = false -> return_ key = false ->
  leftArrow key = false -> rightArrow key = true ->
  0 <= cursorOffset st <= len (value p) ->
  useInput_handler p st input key =
  [SetState (if showCursor p then mkState (cursorOffset st + 1) 0 false
             else mkState (cursorOffset st) 0 (isHighlighted st))].
Proof.
  intros Hi Hr Hl Hrt Hk.
  rewrite (handler_editing p st input key Hi Hr).
  rewrite (clamp_in_range p st _ Hk).
  unfold edit. rewrite Hl, Hrt.
  destruct (showCursor p);
    cbn [nextCursorOffset nextValue nextCursorWidth nextIsHighlighted];
    rewrite str_eqb_refl; reflexivity.
Qed.

(** X4.  With [showCursor], on the focused uncontrolled component with the
    cursor at [k] inside the value: a left arrow leaves the value alone and
    the cursor at [k - 1] (so at -1 from 0: nothing brings it back); a right
    arrow leaves the cursor at [k + 1], or at the end of the value when it
    was there already, the clamp effect undoing the step.  Either clears the
    highlight and the cursor width. *)
Theorem arrow_moves_cursor :
  forall (p : Props) (st : State) (input : jsstring) (key : Key),
    focus p = true ->
    showCursor p = true ->
    ignored input key = false ->
    return_ key = false ->
    0 <= cursorOffset st <= len (value p) ->
    (leftArrow key = true ->
     uncontrolled_press (p, st) (input, key)
     = (p, mkState (cursorOffset st - 1) 0 false))
    /\ (leftArrow key = false -> rightArrow key = true ->
        uncontrolled_press (p, st) (input, key)
        = (p, mkState (Z.min (cursorOffset st + 1) (len (value p))) 0 false)).
Proof.
  intros p st input key Hf Hs Hi Hr Hk. split.
  - intros Hl.
    rewrite (uncontrolled_press_focused p st input key Hf).
    rewrite (handler_left p st input key Hi Hr Hl Hk), Hs.
    unfold value_after. cbn [onChange_calls List.last state_after].
    rewrite with_value_same.
    rewrite settle_in_range; [reflexivity | apply focus_deps_same |].
    cbn [cursorOffset]. lia.
  - intros Hl Hrt.
    rewrite (uncontrolled_press_focused p st input key Hf).
    rewrite (handler_right p st input key Hi Hr Hl Hrt Hk), Hs.
    unfold value_after. cbn [onChange_calls List.last state_after].
    rewrite with_value_same.
    destruct (Z.eq_dec (cursorOffset st) (len (value p))) as [E|E].
    + rewrite settle_beyond.
      * cbn [cursorWidth isHighlighted]. f_equal. f_equal. lia.
      * cbn [cursorOffset]. lia.
      * cbn [cursorOffset]. lia.
    + rewrite settle_in_range.
      * f_equal. f_equal. lia.
      * apply focus_deps_same.
      * cbn [cursorOffset]. lia.
Qed.

Lemma arrow_moves_cursor_witness :
  uncontrolled_press (default_props (lit "ab"), mkState 2 0 false)
                     ([], key_right)
  = (default_props (lit "ab"), mkState 2 0 false).
Proof.
  destruct (arrow_moves_cursor
              (default_props (lit "ab")) (mkState 2 0 false) [] key_right
              eq_refl eq_refl eq_refl eq_refl) as [_ H].
  - unfold len. simpl. lia.
  - exact (H eq_refl eq_refl).
Defined.

(** X5.  With [showCursor] false an arrow key never clears the highlight
    and never calls [onChange]: the handler's only call is [setState] with the
    highlight as it was, cursor width 0, and the cursor offset as it was when
    it lies inside the value -- an offset below 0 is set to 0 and one beyond
    the value to its length, by lines 240-246. *)
Theorem arrow_without_cursor_only_clamps :
  forall (p : Props) (st : State) (input : jsstring) (key : Key),
    showCursor p = false ->
    ignored input key = false ->
    return_ key = false ->
    leftArrow key = true \/ rightArrow key = true ->
    useInput_handler p st input key =
      [SetState (mkState (if cursorOffset st >? len (value p)
                          then len (value p)
                          else if cursorOffset st <? 0 then 0
                          else cursorOffset st)
                         0 (isHighlighted st))]
    /\ (0 <= cursorOffset st <= len (value p) ->
        useInput_handler p st input key =
        [SetState (mkState (cursorOffset st) 0 (isHighlighted st))]).
Proof.
  intros p st input key Hs Hi Hr Ha.
  assert (He : edit p st input key =
               mkNext (cursorOffset st) (value p) 0 (isHighlighted st)).
  { unfold edit. rewrite Hs.
    destruct (leftArrow key) eqn:Hl; [reflexivity|].
    destruct Ha as [Ha|Ha]; [discriminate|]. rewrite Ha. reflexivity. }
  assert (Ht : useInput_handler p st input key =
               [SetState (mkState (if cursorOffset st >? len (value p)
                                   then len (value p)
                                   else if cursorOffset st <? 0 then 0
                                   else cursorOffset st)
                                  0 (isHighlighted st))]).
  { rewrite (handler_editing p st input key Hi Hr), He.
    cbn [nextValue nextCursorWidth nextIsHighlighted].
    rewrite str_eqb_refl. unfold clamp.
    destruct (cursorOffset st <? 0), (cursorOffset st >? len (value p));
      reflexivity. }
  split; [exact Ht|].
  intros Hk. rewrite Ht.
  assert (E1 : (cursorOffset st >? len (value p)) = false).
  { rewrite Z.gtb_ltb. apply Z.ltb_ge. lia. }
  assert (E2 : (cursorOffset st <? 0) = false) by (apply Z.ltb_ge; lia).
  rewrite E1, E2. reflexivity.
Qed.

Lemma arrow_without_cursor_only_clamps_witness :
  useInput_handler (mkProps (lit "abc") [] true None false false true true)
                   (mkState 3 0 true) [] key_left
  = [SetState (mkState 3 0 true)]
  /\ useInput_handler (mkProps (lit "abc") [] true None false false false true)
                      (mkState (-1) 0 false) [] key_right
     = [SetState (mkState 0 0 false)].
Proof.
  split.
  - destruct (arrow_without_cursor_only_clamps
                (mkProps (lit "abc") [] true None false false true true)
                (mkState 3 0 true) [] key_left
                eq_refl eq_refl eq_refl (or_introl eq_refl)) as [H _].
    exact H.
  - destruct (arrow_without_cursor_only_clamps
                (mkProps (lit "abc") [] true None false false false true)
                (mkState (-1) 0 false) [] key_right
                eq_refl eq_refl eq_refl (or_intror eq_refl)) as [H _].
    exact H.
Defined.

(** X6.  An event with the up-arrow, down-arrow or tab flag, or ctrl with
    the input "c", makes the handler do nothing -- no [setState], no
    callback -- whatever other flags it carries (tab with return does not
    submit); the uncontrolled component is left exactly as it was. *)
Theorem ignored_keys_do_nothing :
  forall (p : Props) (st : State) (input : jsstring) (key : Key),
    upArrow key = true \/ downArrow key = true \/ tab key = true
    \/ (ctrl key = true /\ input = lit "c") ->
    useInput_handler p st input key = []
    /\ uncontrolled_press (p, st) (input, key) = (p, st).
Proof.
  intros p st input key H.
  assert (Hi : ignored input key = true).
  { unfold ignored. destruct H as [H|[H|[H|[H1 H2]]]].
    - rewrite H. reflexivity.
    - rewrite H. apply orb_true_iff. left. apply orb_true_iff. left.
      apply orb_true_iff. left. apply orb_true_r.
    - rewrite H. apply orb_true_iff. left. apply orb_true_r.
    - rewrite H1. subst input. rewrite str_eqb_refl.
      apply orb_true_iff. left. apply orb_true_iff. left. apply orb_true_r. }
  assert (Ht : useInput_handler p st input key = []).
  { unfold useInput_handler. rewrite Hi. reflexivity. }
  split; [exact Ht|].
  unfold uncontrolled_press. destruct (focus p); [|reflexivity].
  rewrite Ht. unfold value_after. cbn [onChange_calls List.last state_after].
  rewrite with_value_same, settle_same. reflexivity.
Qed.

Lemma ignored_keys_do_nothing_witness :
  useInput_handler (default_props (lit "abc")) (mkState 3 0 false) (lit "c")
                   key_ctrl = [].
Proof.
  destruct (ignored_keys_do_nothing
              (default_props (lit "abc")) (mkState 3 0 false) (lit "c")
              key_ctrl) as [H _].
  - right. right. right. split; reflexivity.
  - exact H.
Defined.

(** X7.  For every event the handler calls [setState], [onChange] and
    [onSubmit] at most once each.  It calls [onSubmit] only for an event with
    the return flag, and then calls nothing else; it calls [onChange] only
    together with one [setState]. *)
Theorem trace_shape :
  forall (p : Props) (st : State) (input : jsstring) (key : Key),
    (List.length (setState_calls (useInput_handler p st input key)) <= 1)%nat
    /\ (List.length (onChange_calls (useInput_handler p st input key)) <= 1)%nat
    /\ (List.length (onSubmit_calls (useInput_handler p st input key)) <= 1)%nat
    /\ (onSubmit_calls (useInput_handler p st input key) <> [] ->
        return_ key = true
        /\ useInput_handler p st input key = [OnSubmit (value p)])
    /\ (onChange_calls (useInput_handler p st input key) <> [] ->
        List.length (setState_calls (useInput_handler p st input key)) = 1%nat).
Proof.
  intros p st input key.
  assert (Hshape :
    useInput_handler p st input key = []
    \/ (return_ key = true
        /\ useInput_handler p st input key = [OnSubmit (value p)])
    \/ (exists s, useInput_handler p st input key = [SetState s])
    \/ (exists s v, useInput_handler p st input key = [SetState s; OnChange v])).
  { destruct (ignored input key) eqn:Hi.
    - left. unfold useInput_handler. rewrite Hi. reflexivity.
    - destruct (return_ key) eqn:Hr.
      + unfold useInput_handler. rewrite Hi, Hr.
        destruct (onSubmit p); [right; left; split; reflexivity | left; reflexivity].
      + rewrite (handler_editing p st input key Hi Hr).
        destruct (str_eqb (nextValue (edit p st input key)) (value p)).
        * right. right. left. eexists. reflexivity.
        * right. right. right. eexists. eexists. reflexivity. }
  destruct Hshape as [E | [[Hr E] | [[s E] | [s [v E]]]]]; rewrite E; cbn.
  - split; [lia|]. split; [lia|]. split; [lia|].
    split; intros Hx; contradiction Hx; reflexivity.
  - split; [lia|]. split; [lia|]. split; [lia|]. split.
    + intros _. split; [exact Hr | reflexivity].
    + intros Hx. contradiction Hx. reflexivity.
  - split; [lia|]. split; [lia|]. split; [lia|].
    split; intros Hx; contradiction Hx; reflexivity.
  - split; [lia|]. split; [lia|]. split; [lia|]. split.
    + intros Hx. contradiction Hx. reflexivity.
    + intros _. reflexivity.
Qed.

Lemma trace_shape_witness :
  useInput_handler (default_props (lit "query")) (mkState 5 0 false) []
                   key_return = [OnSubmit (lit "query")].
Proof.
  destruct (trace_shape (default_props (lit "query")) (mkState 5 0 false) []
                        key_return) as (_ & _ & _ & H & _).
  destruct H as [_ H]; [discriminate | exact H].
Defined.

(* ================================================================== *)
(** ** Mounting and typing a whole text                                *)
(* ================================================================== *)

Lemma mount_plain (p : Props) :
  (focus p && highlightOnFocus p) = false ->
  mount p = mkState (len (value p)) 0 false.
Proof.
  intros H. unfold mount, focus_effect. rewrite H.
  unfold initial_state, clamp_effect. cbn [cursorOffset].
  assert (E : (len (value p) >? len (value p)) = false).
  { rewrite Z.gtb_ltb. apply Z.ltb_ge. lia. }
  rewrite E.
  destruct (negb (focus p)); cbn [run_effect cursorOffset cursorWidth];
    rewrite recommit_unfold; cbn [cursorOffset]; rewrite Z.eqb_refl;
    reflexivity.
Qed.

(** X8.  After the first render and its effects the cursor is at the end of
    the value, the cursor width is 0, and the value is highlighted exactly
    when [focus] and [highlightOnFocus] both hold. *)
Theorem mount_state :
  forall p : Props,
    mount p = mkState (len (value p)) 0 (focus p && highlightOnFocus p).
Proof.
  intros p. destruct (focus p && highlightOnFocus p) eqn:E.
  - apply andb_true_iff in E. destruct E as [Hf Hh].
    apply mount_highlights; assumption.
  - apply mount_plain. exact E.
Qed.

(** Typing at the end of the value, one unit per key event. *)
Lemma type_at_end (cs : jsstring) :
  forall p : Props,
    focus p = true ->
    fold_left uncontrolled_press (keystrokes cs)
              (p, mkState (len (value p)) 0 false)
    = (with_value p (value p ++ cs),
       mkState (len (value p) + len cs) 0 false).
Proof.
  induction cs as [|c cs IH]; intros p Hf.
  - cbn [keystrokes map fold_left]. rewrite app_nil_r, with_value_same.
    change (len []) with 0. rewrite Z.add_0_r. reflexivity.
  - cbn [keystrokes map fold_left]. fold (keystrokes cs).
    assert (H1 : uncontrolled_press (p, mkState (len (value p)) 0 false)
                                    ([c], no_flags)
                 = (with_value p (value p ++ [c]),
                    mkState (len (value p ++ [c])) 0 false)).
    { pose proof (len_nonneg (value p)) as Hl.
      etransitivity.
      { apply (uncontrolled_insert p (mkState (len (value p)) 0 false)
                 [c] no_flags Hf eq_refl);
          cbn [cursorOffset isHighlighted];
          try discriminate; try reflexivity; lia. }
      cbn [cursorOffset]. unfold len at 1 2. rewrite Nat2Z.id.
      rewrite firstn_all, skipn_all, app_nil_r, len_app. reflexivity. }
    rewrite H1.
    etransitivity; [apply (IH (with_value p (value p ++ [c])) Hf)|].
    cbn [with_value value]. rewrite with_value_twice.
    rewrite <- app_assoc. cbn [app].
    rewrite len_app. change (len [c]) with 1.
    unfold len. cbn [List.length].
    f_equal. f_equal. lia.
Qed.

(** X9.  The uncontrolled component mounted with focus and without
    [highlightOnFocus], then given one key event per code unit of [cs],
    holds the initial value followed by [cs], with the cursor at its end. *)
Theorem typing_appends :
  forall (p : Props) (cs : jsstring),
    focus p = true ->
    highlightOnFocus p = false ->
    uncontrolled_run p (keystrokes cs)
    = (with_value p (value p ++ cs),
       mkState (len (value p ++ cs)) 0 false).
Proof.
  intros p cs Hf Hh. unfold uncontrolled_run.
  rewrite mount_plain by (rewrite Hf, Hh; reflexivity).
  rewrite (type_at_end cs p Hf). rewrite len_app. reflexivity.
Qed.

Lemma typing_appends_witness :
  uncontrolled_run (default_props (lit "ab")) (keystrokes (lit "cd"))
  = (default_props (lit "abcd"), mkState 4 0 false).
Proof.
  apply (typing_appends (default_props (lit "ab")) (lit "cd"));
    reflexivity.
Defined.

(** X10.  The uncontrolled component mounted with focus and
    [highlightOnFocus], then given one key event per code unit of a
    non-empty [cs], holds exactly [cs]: the first key replaces the initial
    value, whatever it was, and the rest is appended. *)
Theorem typing_over_initial_value :
  forall (p : Props) (c : code_unit) (cs : jsstring),
    focus p = true ->
    highlightOnFocus p = true ->
    uncontrolled_run p (keystrokes (c :: cs))
    = (with_value p (c :: cs), mkState (len (c :: cs)) 0 false).
Proof.
  intros p c cs Hf Hh. unfold uncontrolled_run.
  rewrite (mount_highlights p Hf Hh).
  cbn [keystrokes map fold_left]. fold (keystrokes cs).
  assert (H1 : uncontrolled_press (p, mkState (len (value p)) 0 true)
                                  ([c], no_flags)
               = (with_value p [c], mkState (len [c]) 0 false)).
  { etransitivity;
      [apply (uncontrolled_press_focused p _ [c] no_flags Hf)|].
    rewrite (handler_highlighted p (mkState (len (value p)) 0 true) [c]
               no_flags eq_refl eq_refl).
    - unfold typed_over, value_after.
      destruct (str_eqb [c] (value p)) eqn:E.
      + apply str_eqb_eq in E. cbn [onChange_calls List.last state_after].
        rewrite <- E.
        rewrite settle_in_range;
          [reflexivity | apply with_value_focus_deps |].
        cbn [cursorOffset with_value value]. lia.
      + cbn [onChange_calls List.last state_after].
        rewrite settle_in_range;
          [reflexivity | apply with_value_focus_deps |].
        cbn [cursorOffset with_value value]. lia.
    - cbn [cursorOffset]. pose proof (len_nonneg (value p)). lia. }
  rewrite H1.
  etransitivity; [apply (type_at_end cs (with_value p [c]) Hf)|].
  cbn [with_value value]. rewrite with_value_twice. cbn [app].
  unfold len. cbn [List.length]. f_equal. f_equal. lia.
Qed.

Lemma typing_over_initial_value_witness :
  uncontrolled_run (mkProps (lit "old") [] true None false true true true)
                   (keystrokes (lit "new"))
  = (mkProps (lit "new") [] true None false true true true,
     mkState 3 0 false).
Proof.
  apply (typing_over_initial_value
           (mkProps (lit "old") [] true None false true true true)
           110 (lit "ew"));
    reflexivity.
Defined.

(* ================================================================== *)
(** ** What the effects keep                                           *)
(* ================================================================== *)

(** A commit leaves the cursor width alone, and the offset where it was or
    at the end of the value. *)
Lemma commit_frame (p : Props) (st : State) (p' : Props) (st' : State) :
  cursorWidth (commit p st p' st') = cursorWidth st'
  /\ (cursorOffset (commit p st p' st') = cursorOffset st'
      \/ cursorOffset (commit p st p' st') = len (value p')).
Proof.
  unfold commit, focus_effect, clamp_effect, run_effect.
  destruct (focus_deps_changed p p'), (clamp_deps_changed p st p' st'),
    (focus p'), (highlightOnFocus p'), (cursorOffset st' >? len (value p'));
    cbn [andb negb cursorOffset cursorWidth]; split; auto.
Qed.

Lemma settle_frame (p : Props) (st : State) (p' : Props) (st' : State) :
  cursorWidth (settle p st p' st') = cursorWidth st'
  /\ (cursorOffset (settle p st p' st') = cursorOffset st'
      \/ cursorOffset (settle p st p' st') = len (value p')).
Proof.
  unfold settle.
  destruct (commit_frame p st p' st') as [W1 O1].
  destruct (commit_frame p' st' p' (commit p st p' st')) as [W2 O2].
  split; [congruence|].
  destruct O2 as [O2|O2]; [|right; exact O2].
  destruct O1 as [O1|O1]; [left|right]; congruence.
Qed.

Lemma mount_frame (p : Props) :
  cursorOffset (mount p) = len (value p) /\ cursorWidth (mount p) = 0.
Proof.
  destruct (focus p && highlightOnFocus p) eqn:E.
  - apply andb_true_iff in E. destruct E as [Hf Hh].
    rewrite (mount_highlights p Hf Hh). split; reflexivity.
  - rewrite (mount_plain p E). split; reflexivity.
Qed.

(** The handler never sets an offset below -1 or a negative cursor width
    when it starts from an offset of -1 or more. *)
Lemma handler_lower_bounds (p : Props) (st : State) (input : jsstring)
    (key : Key) :
  -1 <= cursorOffset st -> 0 <= cursorWidth st ->
  -1 <= cursorOffset (state_after st (useInput_handler p st input key))
  /\ 0 <= cursorWidth (state_after st (useInput_handler p st input key)).
Proof.
  intros Hc Hw. rewrite state_after_handler.
  destruct (ignored input key || return_ key); [split; assumption|].
  pose proof (len_nonneg input) as Hi.
  pose proof (len_nonneg (value p)) as Hv.
  unfold clamp, edit.
  destruct (cursorOffset st <? 0) eqn:E1;
    destruct (cursorOffset st >? len (value p)) eqn:E2;
    destruct (leftArrow key); destruct (rightArrow key);
    destruct (backspace key || delete key); destruct (showCursor p);
    destruct (cursorOffset st >? 0) eqn:E3; destruct (isHighlighted st);
    destruct (len input >? 1) eqn:E4;
    cbn [nextCursorOffset nextValue nextCursorWidth nextIsHighlighted
         cursorOffset cursorWidth];
    zify_tests; split; lia.
Qed.

(** X11.  In every state the component reaches between events -- after
    mount, after any change of props, after any key event and the parent's
    answer to it -- the cursor offset is at least -1 and at most the length of
    the value, and the cursor width is not negative. *)
Theorem reachable_offset_bounded :
  forall (p : Props) (st : State),
    reachable p st -> offset_bounded p st.
Proof.
  intros p st Hr.
  assert (Hlow : -1 <= cursorOffset st /\ 0 <= cursorWidth st).
  { induction Hr as [p | p st p' Hr IH | p st input key p' Hr IH Hf Hparent].
    - destruct (mount_frame p) as [E1 E2]. rewrite E1, E2.
      pose proof (len_nonneg (value p)). lia.
    - destruct IH as [IH1 IH2].
      destruct (settle_frame p st p' st) as [W O].
      pose proof (len_nonneg (value p')).
      rewrite W. split; [|exact IH2]. destruct O as [O|O]; rewrite O; lia.
    - destruct IH as [IH1 IH2].
      destruct (handler_lower_bounds p st input key IH1 IH2) as [L1 L2].
      destruct (settle_frame p st p'
                  (state_after st (useInput_handler p st input key)))
        as [W O].
      pose proof (len_nonneg (value p')).
      rewrite W. split; [|exact L2]. destruct O as [O|O]; rewrite O; lia. }
  pose proof (reachable_upper_bound p st Hr) as Hup.
  unfold offset_bounded. lia.
Qed.

Lemma reachable_offset_bounded_witness :
  offset_bounded (default_props (lit "a")) (mount (default_props (lit "a"))).
Proof.
  apply (reachable_offset_bounded
           (default_props (lit "a")) (mount (default_props (lit "a")))).
  apply reach_mount.
Defined.

(** X12.  When the parent passes another value and leaves [focus] and
    [highlightOnFocus] as they were, the effects leave the cursor where it
    was if it still fits and at the end of the new value otherwise; the
    cursor width and the highlight are kept. *)
Theorem value_change_reclamps :
  forall (p : Props) (st : State) (p' : Props),
    focus_deps_changed p p' = false ->
    cursorOffset st <= len (value p) ->
    settle p st p' st =
    mkState (Z.min (cursorOffset st) (len (value p')))
            (cursorWidth st) (isHighlighted st).
Proof.
  intros p st p' Hd Hup.
  destruct (Z_le_gt_dec (cursorOffset st) (len (value p'))) as [Hle|Hgt].
  - rewrite (settle_in_range p st p' st Hd Hle).
    rewrite Z.min_l by exact Hle. destruct st; reflexivity.
  - assert (E : (cursorOffset st >? len (value p')) = true)
      by (apply Z.gtb_lt; lia).
    assert (Hv : clamp_deps_changed p st p' st = true).
    { destruct (clamp_deps_changed p st p' st) eqn:Ec; [reflexivity|].
      apply clamp_deps_unchanged in Ec. destruct Ec as [Ev _].
      rewrite Ev in Hup. lia. }
    assert (Hc : commit p st p' st =
                 mkState (len (value p')) (cursorWidth st) (isHighlighted st)).
    { unfold commit, clamp_effect. rewrite Hd, Hv, E. reflexivity. }
    unfold settle. rewrite Hc, recommit_unfold.
    unfold clamp_effect. cbn [cursorOffset].
    assert (E3 : (len (value p') >? len (value p')) = false).
    { rewrite Z.gtb_ltb. apply Z.ltb_ge. lia. }
    rewrite E3. rewrite Z.min_r by lia.
    destruct (negb (cursorOffset st =? len (value p'))); reflexivity.
Qed.

Lemma value_change_reclamps_witness :
  settle (default_props (lit "hello")) (mkState 5 0 false)
         (default_props (lit "hi")) (mkState 5 0 false)
  = mkState 2 0 false.
Proof.
  apply (value_change_reclamps
           (default_props (lit "hello")) (mkState 5 0 false)
           (default_props (lit "hi"))).
  - reflexivity.
  - unfold len. simpl. lia.
Defined.

Lemma rerender_same (n : nat) (p : Props) (s : State) :
  rerender n p s s = s.
Proof.
  induction n as [|n IH]; [reflexivity|].
  cbn [rerender]. rewrite recommit_unfold, Z.eqb_refl. cbn [negb].
  exact IH.
Qed.

(** X13.  The effects do not keep the component rendering: after the commit
    that follows an event and the one commit their own state updates can
    cause, any number of further renders with the same props leaves the state
    as it is. *)
Theorem effects_reach_fixed_point :
  forall (n : nat) (p : Props) (st : State) (p' : Props) (st' : State),
    rerender n p' (commit p st p' st') (settle p st p' st')
    = settle p st p' st'.
Proof.
  intros n p st p' st'. destruct n as [|n]; [reflexivity|].
  cbn [rerender]. rewrite settle_stable. apply rerender_same.
Qed.

(* ================================================================== *)
(** ** What is shown in inverse                                        *)
(* ================================================================== *)

Lemma shows_inverse_plain (s : jsstring) : shows_inverse (plain s) = false.
Proof. induction s as [|c s IH]; [reflexivity | exact IH]. Qed.

Lemma shows_inverse_grey (s : jsstring) : shows_inverse (chalk_grey s) = false.
Proof. induction s as [|c s IH]; [reflexivity | exact IH]. Qed.

Lemma shows_inverse_inverse (s : jsstring) :
  shows_inverse (chalk_inverse s) = truthy s.
Proof. destruct s; reflexivity. Qed.

(** X14.  Without focus the fake cursor is never drawn, and what is rendered
    depends on the highlight alone.  A state that is still highlighted -- the
    one render between [focus] going false and the focus effect running --
    renders the placeholder, when it is shown, or else the displayed value,
    wholly in inverse.  A state that is not highlighted renders the grey
    placeholder or the unstyled value, nothing in inverse; every state reached
    after the effects have run is of this kind. *)
Theorem unfocused_render_follows_highlight :
  forall (p : Props) (st : State),
    focus p = false ->
    render p st =
      Some (if isHighlighted st then
              chalk_inverse (if shows_placeholder p then placeholder p
                             else masked_value p)
            else if shows_placeholder p then chalk_grey (placeholder p)
            else plain (masked_value p))
    /\ (isHighlighted st = false ->
        exists t, render p st = Some t /\ shows_inverse t = false)
    /\ (isHighlighted st = true ->
        exists t, render p st = Some t
                  /\ shows_inverse t =
                     truthy (if shows_placeholder p then placeholder p
                             else masked_value p))
    /\ (reachable p st ->
        isHighlighted st = false
        /\ exists t, render p st = Some t /\ shows_inverse t = false).
Proof.
  intros p st Hf.
  assert (Hrender :
    render p st =
      Some (if isHighlighted st then
              chalk_inverse (if shows_placeholder p then placeholder p
                             else masked_value p)
            else if shows_placeholder p then chalk_grey (placeholder p)
            else plain (masked_value p))).
  { unfold render, shows_placeholder, renderedValue, renderedPlaceholder,
      cursor_mode.
    rewrite Hf, andb_false_r. cbn [andb].
    destruct (truthy (placeholder p)); cbn [andb];
      destruct (len (masked_value p) >? 0); cbn [negb];
      destruct (isHighlighted st); reflexivity. }
  assert (Hplain : isHighlighted st = false ->
                   exists t, render p st = Some t /\ shows_inverse t = false).
  { intros Hh. rewrite Hrender, Hh. eexists. split; [reflexivity|].
    destruct (shows_placeholder p);
      [apply shows_inverse_grey | apply shows_inverse_plain]. }
  split; [exact Hrender|]. split; [exact Hplain|]. split.
  - intros Hh. rewrite Hrender, Hh. eexists. split; [reflexivity|].
    apply shows_inverse_inverse.
  - intros Hr.
    assert (Hh : isHighlighted st = false).
    { apply reachable_settled in Hr. destruct Hr as (_ & _ & H). apply H.
      exact Hf. }
    split; [exact Hh | exact (Hplain Hh)].
Qed.

Lemma unfocused_render_follows_highlight_witness :
  render (with_focus (default_props (lit "abc")) false)
         (mount (with_focus (default_props (lit "abc")) false))
  = Some (plain (lit "abc"))
  /\ render (with_focus (default_props (lit "abc")) false) (mkState 3 0 true)
     = Some (chalk_inverse (lit "abc")).
Proof.
  split.
  - destruct (unfocused_render_follows_highlight
                (with_focus (default_props (lit "abc")) false)
                (mount (with_focus (default_props (lit "abc")) false))
                eq_refl) as [H _].
    exact H.
  - destruct (unfocused_render_follows_highlight
                (with_focus (default_props (lit "abc")) false)
                (mkState 3 0 true) eq_refl) as [H _].
    exact H.
Defined.

(** Without a high surrogate every code unit is a character of its own. *)
Lemma code_points_units (s : jsstring) :
  no_high_surrogate s = true -> code_points s = map (fun c => [c]) s.
Proof.
  induction s as [|c s IH]; intros H; [reflexivity|].
  cbn [no_high_surrogate forallb] in H. apply andb_true_iff in H.
  destruct H as [Hc Hs]. apply negb_true_iff in Hc.
  destruct s as [|d r]; [reflexivity|].
  rewrite code_points_cons2, Hc. cbn [andb map].
  f_equal. apply IH. exact Hs.
Qed.

(** The loop only appends to what it is given. *)
Lemma cursor_loop_app (chars : list jsstring) (i lo hi : Z) (acc : styled) :
  cursor_loop chars i lo hi acc = acc ++ cursor_loop chars i lo hi [].
Proof.
  revert i acc. induction chars as [|char rest IH]; intros i acc.
  - cbn [cursor_loop]. rewrite app_nil_r. reflexivity.
  - cbn [cursor_loop]. rewrite IH. rewrite (IH (i + 1) ([] ++ _)).
    cbn [app]. rewrite app_assoc. reflexivity.
Qed.

Lemma nth_cursor_loop_units (v : jsstring) (lo hi : Z) :
  forall (i : Z) (j : nat) (c : code_unit),
    nth_error v j = Some c ->
    nth_error (cursor_loop (map (fun c => [c]) v) i lo hi []) j =
    Some (if (i + Z.of_nat j >=? lo) && (i + Z.of_nat j <=? hi)
          then Inverse else Plain, c).
Proof.
  induction v as [|c0 v IH]; intros i j c Hj.
  - destruct j; discriminate.
  - cbn [map cursor_loop]. rewrite cursor_loop_app. cbn [app].
    destruct j as [|j].
    + cbn [nth_error] in Hj. injection Hj as Hj. subst c0.
      rewrite Z.add_0_r.
      destruct ((i >=? lo) && (i <=? hi)); reflexivity.
    + cbn [nth_error] in Hj.
      replace (i + Z.of_nat (S j)) with (i + 1 + Z.of_nat j) by lia.
      rewrite <- (IH (i + 1) j c Hj).
      destruct ((i >=? lo) && (i <=? hi)); reflexivity.
Qed.

Lemma nth_error_app_left {A : Type} (l l' : list A) (j : nat) (x : A) :
  nth_error l j = Some x -> nth_error (l ++ l') j = Some x.
Proof.
  intros H. rewrite nth_error_app1; [exact H|].
  apply nth_error_Some. rewrite H. discriminate.
Qed.

(** X15.  While the cursor is shown ([showCursor && focus && !isHighlighted])
    and the displayed value has no high surrogate, the code unit at index
    [j] of the displayed value is rendered at index [j], in inverse exactly
    when [cursorOffset - w <= j <= cursorOffset], where [w] is the cursor
    width if [highlightPastedText] and 0 otherwise. *)
Theorem cursor_marks_units :
  forall (p : Props) (st : State) (j : nat) (c : code_unit),
    cursor_mode p st = true ->
    no_high_surrogate (masked_value p) = true ->
    nth_error (masked_value p) j = Some c ->
    nth_error (renderedValue p st) j = Some (loop_style p st (Z.of_nat j), c).
Proof.
  intros p st j c Hcm Hbmp Hj.
  assert (Hne : (len (masked_value p) >? 0) = true).
  { rewrite <- truthy_len. destruct (masked_value p); [|reflexivity].
    destruct j; discriminate. }
  pose proof (nth_cursor_loop_units (masked_value p)
                (cursorOffset st - cursorActualWidth p st) (cursorOffset st)
                0 j c Hj) as Hn.
  rewrite Z.add_0_l in Hn.
  unfold renderedValue. rewrite Hcm, Hne. cbn [andb].
  rewrite (code_points_units (masked_value p) Hbmp).
  unfold loop_style.
  destruct (cursorOffset st =? len (masked_value p)).
  - apply nth_error_app_left. exact Hn.
  - exact Hn.
Qed.

Lemma cursor_marks_units_witness :
  nth_error (renderedValue
               (mkProps (lit "abcd") [] true None true true false true)
               (mkState 2 2 false)) 1
  = Some (Inverse, 98).
Proof.
  apply (cursor_marks_units
           (mkProps (lit "abcd") [] true None true true false true)
           (mkState 2 2 false) 1 98); reflexivity.
Defined.

(** X16.  With a non-empty mask the rendered output depends on the value
    only through its length: two values of the same length render the same,
    in every state. *)
Theorem masked_render_shows_only_length :
  forall (p : Props) (m v1 v2 : jsstring) (st : State),
    mask p = Some m ->
    m <> [] ->
    List.length v1 = List.length v2 ->
    render (with_value p v1) st = render (with_value p v2) st.
Proof.
  intros p m v1 v2 st Hm Hne Hl.
  assert (Hmv : masked_value (with_value p v1) = masked_value (with_value p v2)).
  { rewrite (masked_value_mask (with_value p v1) m Hm Hne).
    rewrite (masked_value_mask (with_value p v2) m Hm Hne).
    cbn [with_value value]. rewrite Hl. reflexivity. }
  unfold render, renderedValue, renderedPlaceholder, cursor_mode,
    cursorActualWidth.
  rewrite Hmv. reflexivity.
Qed.

Lemma masked_render_shows_only_length_witness :
  render (with_value (with_mask (default_props []) (lit "*")) (lit "abc"))
         (mkState 3 0 false)
  = render (with_value (with_mask (default_props []) (lit "*")) (lit "xyz"))
           (mkState 3 0 false).
Proof.
  apply (masked_render_shows_only_length
           (with_mask (default_props []) (lit "*")) (lit "*")
           (lit "abc") (lit "xyz") (mkState 3 0 false)).
  - reflexivity.
  - discriminate.
  - reflexivity.
Defined.

Lemma masked_value_empty (p : Props) :
  value p = [] -> masked_value p = [].
Proof.
  intros H. unfold masked_value. rewrite H.
  destruct (mask p) as [m|]; [|reflexivity].
  destruct (truthy m); reflexivity.
Qed.

(** X17.  An empty value always renders, and never as mask characters:
    while the cursor is shown, as the placeholder with its first unit in
    inverse and the rest grey, or as one inverse space when there is no
    placeholder; otherwise as the placeholder, in inverse when highlighted and
    grey when not (the empty string when there is no placeholder). *)
Theorem empty_value_render :
  forall (p : Props) (st : State),
    value p = [] ->
    render p st =
    Some (if cursor_mode p st then
            if truthy (placeholder p)
            then chalk_inverse (char_at0 (placeholder p))
                 ++ chalk_grey (slice_from (placeholder p) 1)
            else chalk_inverse (lit " ")
          else if isHighlighted st then chalk_inverse (placeholder p)
          else chalk_grey (placeholder p)).
Proof.
  intros p st Hv.
  pose proof (masked_value_empty p Hv) as Hm.
  unfold render, renderedValue, renderedPlaceholder.
  rewrite Hm. change (len [] >? 0) with false. cbn [andb code_points cursor_loop].
  destruct (truthy (placeholder p)) eqn:Ep.
  - rewrite <- truthy_len, Ep.
    destruct (cursor_mode p st); [reflexivity|].
    destruct (isHighlighted st); reflexivity.
  - assert (Eph : placeholder p = []).
    { destruct (placeholder p); [reflexivity | discriminate]. }
    rewrite Eph.
    destruct (cursor_mode p st); [reflexivity|].
    destruct (isHighlighted st); reflexivity.
Qed.

Lemma empty_value_render_witness :
  render (with_placeholder (default_props []) (lit "name"))
         (mkState 0 0 false)
  = Some (chalk_inverse (lit "n") ++ chalk_grey (lit "ame")).
Proof.
  apply (empty_value_render
           (with_placeholder (default_props []) (lit "name"))
           (mkState 0 0 false)).
  reflexivity.
Defined.

(* ================================================================== *)
(** ** The offset -1                                                   *)
(* ================================================================== *)

(** [slice(0, -1)] drops the last code unit, [slice(-1, length)] is the
    last code unit. *)
Lemma slice_before_last (v : jsstring) :
  slice v 0 (-1) = firstn (List.length v - 1) v
  /\ slice v (-1) (len v) = skipn (List.length v - 1) v.
Proof.
  pose proof (len_nonneg v) as Hl.
  unfold slice, rel_index.
  change (0 <? 0) with false. change (-1 <? 0) with true. cbv iota.
  assert (E : (len v <? 0) = false) by (apply Z.ltb_ge; exact Hl).
  rewrite E.
  rewrite (Z.min_l 0 (len v)) by lia.
  rewrite (Z.min_l (len v) (len v)) by lia.
  cbn [Z.to_nat skipn].
  assert (N : Z.to_nat (Z.max (len v + -1) 0) = (List.length v - 1)%nat)
    by (unfold len; lia).
  split.
  - replace (Z.max (Z.max (len v + -1) 0 - 0) 0)
      with (Z.max (len v + -1) 0) by lia.
    rewrite N. reflexivity.
  - rewrite N. apply firstn_all2. rewrite length_skipn. unfold len. lia.
Qed.

(** X18.  From the offset -1, which a left arrow at 0 leaves, every event
    that is neither ignored nor a return sets the offset to 0, wherever its
    branch pointed; and a printable input typed there, nothing being
    highlighted, is spliced in before the last code unit of the value. *)
Theorem offset_minus_one_recovers :
  forall (p : Props) (st : State) (input : jsstring) (key : Key),
    cursorOffset st = -1 ->
    ignored input key = false ->
    return_ key = false ->
    cursorOffset (state_after st (useInput_handler p st input key)) = 0
    /\ (printable input key = true -> isHighlighted st = false ->
        resulting_value p st input key =
        firstn (List.length (value p) - 1) (value p) ++ input
        ++ skipn (List.length (value p) - 1) (value p)).
Proof.
  intros p st input key Hc Hi Hr. split.
  - rewrite state_after_handler, Hi, Hr. cbn [orb cursorOffset].
    unfold clamp. rewrite Hc. change (-1 <? 0) with true. cbv iota.
    assert (E : (-1 >? len (value p)) = false).
    { rewrite Z.gtb_ltb. apply Z.ltb_ge. pose proof (len_nonneg (value p)).
      lia. }
    rewrite E. reflexivity.
  - intros Hp Hh. unfold resulting_value. rewrite Hi, Hr. cbn [orb].
    rewrite nextValue_clamp, (edit_printable p st input key Hp), Hh, Hc.
    cbn [nextValue].
    destruct (slice_before_last (value p)) as [E1 E2].
    rewrite E1, E2. reflexivity.
Qed.

Lemma offset_minus_one_recovers_witness :
  cursorOffset
    (state_after (mkState (-1) 0 false)
       (useInput_handler (default_props (lit "abc")) (mkState (-1) 0 false)
                         (lit "x") no_flags)) = 0
  /\ resulting_value (default_props (lit "abc")) (mkState (-1) 0 false)
                     (lit "x") no_flags = lit "abxc".
Proof.
  destruct (offset_minus_one_recovers
              (default_props (lit "abc")) (mkState (-1) 0 false) (lit "x")
              no_flags eq_refl eq_refl eq_refl) as [H1 H2].
  split; [exact H1 | exact (H2 eq_refl eq_refl)].
Defined.

(* ================================================================== *)
(** ** Erasing a whole text                                            *)
(* ================================================================== *)

Lemma uncontrolled_erase_at_zero (p : Props) (st : State) (input : jsstring)
    (key : Key) :
  focus p = true ->
  erasing input key = true ->
  cursorOffset st = 0 ->
  uncontrolled_press (p, st) (input, key)
  = (p, mkState 0 0 (isHighlighted st)).
Proof.
  intros Hf He H0.
  pose proof He as He'. apply erasing_spec in He'.
  destruct He' as (Hi & Hr & _).
  pose proof (len_nonneg (value p)) as Hl.
  rewrite (uncontrolled_press_focused p st input key Hf).
  rewrite (handler_editing p st input key Hi Hr).
  rewrite (clamp_in_range p st _) by lia.
  rewrite (edit_erasing_at_zero p st input key He H0).
  cbn [nextCursorOffset nextValue nextCursorWidth nextIsHighlighted].
  rewrite str_eqb_refl. unfold value_after.
  cbn [onChange_calls List.last state_after].
  rewrite with_value_same.
  rewrite settle_in_range; [reflexivity | apply focus_deps_same |].
  cbn [cursorOffset]. exact Hl.
Qed.

Lemma erase_from_end (n : nat) :
  forall p : Props,
    focus p = true ->
    fold_left uncontrolled_press
              (List.repeat (([] : jsstring), key_backspace) n)
              (p, mkState (len (value p)) 0 false)
    = (with_value p (firstn (List.length (value p) - n) (value p)),
       mkState (Z.of_nat (List.length (value p) - n)) 0 false).
Proof.
  induction n as [|n IH]; intros p Hf.
  - cbn [List.repeat fold_left]. rewrite Nat.sub_0_r, firstn_all.
    rewrite with_value_same. reflexivity.
  - cbn [List.repeat fold_left].
    destruct (Z.eq_dec (len (value p)) 0) as [Hz|Hnz].
    + assert (Hn : List.length (value p) = 0%nat) by (unfold len in Hz; lia).
      assert (H1 : uncontrolled_press (p, mkState (len (value p)) 0 false)
                                      (([] : jsstring), key_backspace)
                   = (p, mkState (len (value p)) 0 false)).
      { etransitivity.
        { apply (uncontrolled_erase_at_zero p
                   (mkState (len (value p)) 0 false) [] key_backspace Hf
                   eq_refl).
          exact Hz. }
        cbn [isHighlighted]. rewrite Hz. reflexivity. }
      rewrite H1.
      etransitivity; [apply (IH p Hf)|].
      rewrite Hn. reflexivity.
    + set (v' := firstn (List.length (value p) - 1) (value p)).
      pose proof (len_nonneg (value p)) as Hl0.
      assert (Hpos : 0 < len (value p)) by lia.
      assert (Hlv : List.length v' = (List.length (value p) - 1)%nat).
      { subst v'. rewrite length_firstn. lia. }
      assert (H1 : uncontrolled_press (p, mkState (len (value p)) 0 false)
                                      (([] : jsstring), key_backspace)
                   = (with_value p v',
                      mkState (len (value (with_value p v'))) 0 false)).
      { etransitivity.
        { apply (uncontrolled_erase p (mkState (len (value p)) 0 false) []
                   key_backspace Hf eq_refl).
          cbn [cursorOffset]. lia. }
        cbn [cursorOffset with_value value].
        replace (Z.to_nat (len (value p) - 1))
          with (List.length (value p) - 1)%nat by (unfold len; lia).
        replace (Z.to_nat (len (value p)))
          with (List.length (value p)) by (unfold len; lia).
        rewrite skipn_all, app_nil_r. fold v'.
        f_equal. f_equal. unfold len. rewrite Hlv. unfold len in Hpos. lia. }
      rewrite H1.
      etransitivity; [apply (IH (with_value p v') Hf)|].
      cbn [with_value value]. rewrite with_value_twice, Hlv.
      subst v'. rewrite firstn_firstn.
      replace (Nat.min (List.length (value p) - 1 - n)
                       (List.length (value p) - 1))
        with (List.length (value p) - S n)%nat by lia.
      replace (List.length (value p) - 1 - n)%nat
        with (List.length (value p) - S n)%nat by lia.
      reflexivity.
Qed.

(** X19.  The uncontrolled component mounted with focus and without
    [highlightOnFocus], then given [n] backspaces, holds the initial value
    without its last [n] code units (the empty value when it has no more than
    [n]), with the cursor at its end: backspaces past the start do
    nothing. *)
Theorem backspaces_erase_from_end :
  forall (p : Props) (n : nat),
    focus p = true ->
    highlightOnFocus p = false ->
    uncontrolled_run p (List.repeat (([] : jsstring), key_backspace) n)
    = (with_value p (firstn (List.length (value p) - n) (value p)),
       mkState (Z.of_nat (List.length (value p) - n)) 0 false).
Proof.
  intros p n Hf Hh. unfold uncontrolled_run.
  rewrite mount_plain by (rewrite Hf, Hh; reflexivity).
  apply erase_from_end. exact Hf.
Qed.

Lemma backspaces_erase_from_end_witness :
  uncontrolled_run (default_props (lit "abc"))
                   (List.repeat (([] : jsstring), key_backspace) 5)
  = (default_props [], mkState 0 0 false).
Proof.
  apply (backspaces_erase_from_end (default_props (lit "abc")) 5);
    reflexivity.
Defined.

(** X20.  Typing a text and erasing it is a round trip: the uncontrolled
    component mounted with focus and without [highlightOnFocus], given one
    key event per code unit of [cs] and then as many backspaces, is back at
    its initial value with the cursor at its end. *)
Theorem type_then_erase_all :
  forall (p : Props) (cs : jsstring),
    focus p = true ->
    highlightOnFocus p = false ->
    uncontrolled_run p
      (keystrokes cs
       ++ List.repeat (([] : jsstring), key_backspace) (List.length cs))
    = (p, mount p).
Proof.
  intros p cs Hf Hh. unfold uncontrolled_run.
  rewrite fold_left_app.
  rewrite mount_plain by (rewrite Hf, Hh; reflexivity).
  rewrite (type_at_end cs p Hf).
  assert (E : mkState (len (value p) + len cs) 0 false
              = mkState (len (value (with_value p (value p ++ cs)))) 0 false).
  { cbn [with_value value]. rewrite len_app. reflexivity. }
  rewrite E.
  etransitivity;
    [apply (erase_from_end (List.length cs) (with_value p (value p ++ cs)) Hf)|].
  cbn [with_value value]. rewrite with_value_twice.
  rewrite length_app.
  replace (List.length (value p) + List.length cs - List.length cs)%nat
    with (List.length (value p)) by lia.
  rewrite firstn_app, firstn_all, Nat.sub_diag. cbn [firstn].
  rewrite app_nil_r, with_value_same. reflexivity.
Qed.

Lemma type_then_erase_all_witness :
  uncontrolled_run (default_props (lit "ab"))
    (keystrokes (lit "cd")
     ++ List.repeat (([] : jsstring), key_backspace) 2)
  = (default_props (lit "ab"), mount (default_props (lit "ab"))).
Proof.
  apply (type_then_erase_all (default_props (lit "ab")) (lit "cd"));
    reflexivity.
Defined.
